(** * ETL_NASA: a shallow embedding of the three pipeline scripts

    The repository holds three stand-alone Python scripts:

    - [scripts/extract.py]   ([extract_nasa_data]):   fetch APOD records, write raw JSON;
    - [scripts/transform.py] ([transform_nasa_data]): project raw JSON to a staged CSV;
    - [scripts/load.py]      ([load_to_supabase]):    upsert the staged CSV in batches.

    Each script is embedded as a Rocq function that returns the Python
    outcome (a value or the exception raised) together with the list of
    effects performed up to that point.  Everything outside the scripts
    (the environment, the file system, the HTTP endpoints, pandas' date
    parser) is an explicit input. *)

From stdpp Require Import base strings list gmap.
From Stdlib Require Import Ascii ZArith Lia.

#[global] Set Warnings "-register-all".

(** ** Python values shared by the three scripts *)

Module Py.

(** The exception classes the scripts can raise.  [ValueError] is the
    class raised by [extract.py] line 26, [FileNotFoundError] the one of
    [transform.py] line 15 and [load.py] line 23, [RuntimeError] the one
    of [load.py] line 69.  The others come from the libraries:
    [HTTPError] from [raise_for_status], [RequestException] from a
    request that gets no response (timeout, connection failure),
    [JSONDecodeError] from [json.load] / [response.json],
    [DateParseError] for whatever the date conversion of [load.py] line
    28 raises, [OverflowError] from the date arithmetic of
    [extract.py] line 33, [UnicodeDecodeError] and [RecursionError]
    from reading a file as JSON, and [AttributeError], [KeyError],
    [TypeError] from the interpreter itself. *)
Inductive exn : Type :=
| ValueError
| FileNotFoundError
| RuntimeError
| HTTPError
| RequestException
| JSONDecodeError
| DateParseError
| AttributeError
| KeyError
| TypeError
| OverflowError
| UnicodeDecodeError
| RecursionError.

#[global] Instance exn_eq_dec : EqDecision exn.
Proof. solve_decision. Defined.

(** A Python computation either returns or raises. *)
Inductive result (A : Type) : Type :=
| Ok (a : A)
| Raise (e : exn).
#[global] Arguments Ok {A} a.
#[global] Arguments Raise {A} e.

Definition bind {A B} (m : result A) (k : A -> result B) : result B :=
  match m with
  | Ok a => k a
  | Raise e => Raise e
  end.

Definition raised {A} (m : result A) : option exn :=
  match m with
  | Ok _ => None
  | Raise e => Some e
  end.

(** The error taxonomy of the design document (section 7), as names for
    the exception classes above: a missing credential is a
    [ValueError], a missing input artifact a [FileNotFoundError], a
    failed upstream request an [HTTPError] or a [RequestException], a
    rejected batch a [RuntimeError]. *)
Inductive error_class : Type :=
| ConfigurationError
| MissingInputError
| RemoteError
| LoadError.

#[global] Instance error_class_eq_dec : EqDecision error_class.
Proof. solve_decision. Defined.

Definition taxonomy (e : exn) : option error_class :=
  match e with
  | ValueError => Some ConfigurationError
  | FileNotFoundError => Some MissingInputError
  | HTTPError | RequestException => Some RemoteError
  | RuntimeError => Some LoadError
  | _ => None
  end.

(** What [json.load] and [response.json()] return.  A JSON object is
    a Python [dict], hence a finite map; numbers are the integers
    (nothing in the scripts computes with them). *)
Inductive json : Type :=
| JNull
| JBool (b : bool)
| JNum (n : Z)
| JStr (s : string)
| JArr (l : list json)
| JObj (o : gmap string json).

(** [isinstance(data, dict)] *)
Definition is_dict (v : json) : bool :=
  match v with
  | JObj _ => true
  | _ => false
  end.

(** Python truthiness, as [not v] and [a or b] use it. *)
Definition truthy (v : json) : bool :=
  match v with
  | JNull => false
  | JBool b => b
  | JNum n => negb (n =? 0)%Z
  | JStr s => negb (bool_decide (s = EmptyString))
  | JArr l => negb (bool_decide (l = []))
  | JObj o => negb (bool_decide (o = ∅))
  end.

(** [a or b] *)
Definition py_or (a b : json) : json := if truthy a then a else b.

(** [d.get(k)] and [d.get(k, dflt)]: [None] (here [JNull]), or the
    default, only when the key is absent. *)
Definition dict_get (d : gmap string json) (k : string) : json :=
  default JNull (d !! k).

Definition dict_get_default (d : gmap string json) (k : string) (dflt : json) : json :=
  default dflt (d !! k).

(** [str.replace(old, new)] for a one-character [old]. *)
Fixpoint replace_char (old : ascii) (new : string) (s : string) : string :=
  match s with
  | EmptyString => EmptyString
  | String c rest =>
      if bool_decide (c = old) then new +:+ replace_char old new rest
      else String c (replace_char old new rest)
  end.

(** [sep.join(parts)] *)
Fixpoint join (sep : string) (parts : list string) : string :=
  match parts with
  | [] => EmptyString
  | [p] => p
  | p :: rest => p +:+ sep +:+ join sep rest
  end.

(** The single characters of a string, as iterating a [str] yields them. *)
Fixpoint chars (s : string) : list string :=
  match s with
  | EmptyString => []
  | String c rest => String c EmptyString :: chars rest
  end.

(** [for x in data]: the items a loop over [data] visits.  A list
    yields its elements, a dict its keys, a string its characters;
    [None], booleans and numbers are not iterable. *)
Definition py_iter (data : json) : result (list json) :=
  match data with
  | JArr l => Ok l
  | JObj o => Ok (JStr <$> (map_to_list o).*1)
  | JStr s => Ok (JStr <$> chars s)
  | JNull | JBool _ | JNum _ => Raise TypeError
  end.

(** [len(data)] *)
Definition py_len (data : json) : result nat :=
  match data with
  | JArr l => Ok (length l)
  | JObj o => Ok (size o)
  | JStr s => Ok (String.length s)
  | JNull | JBool _ | JNum _ => Raise TypeError
  end.

End Py.

Import Py.

Notation "'let*' x ':=' m 'in' k" := (Py.bind m (fun x => k))
  (at level 10, x name, m at level 100, k at level 200, only parsing).

(** ** [scripts/extract.py] *)

Module Extract.

(** The GET request of lines 28-42: the fixed endpoint and the four
    query parameters.  A calendar date is its day number
    ([date.toordinal()]); [isoformat] only prints it. *)
Record request : Type := {
  url : string;
  api_key : string;
  start_date : Z;
  end_date : Z;
  thumbs : bool
}.

(** What [requests.get] yields: no response within the 15 seconds (or
    no connection), or a response with its status and its body, read as
    JSON when it is JSON. *)
Inductive http_outcome : Type :=
| NoResponse
| Response (status_code : N) (body : option json).

Inductive event : Type :=
| HttpGet (req : request)
| WriteJson (path : string) (data : json).

(** The arguments of a call: [None] for an argument left to its
    default.  A caller may pass [api_key=None] or an empty string. *)
Record arguments : Type := {
  arg_api_key : option (option string);
  arg_days_back : option Z
}.

Definition no_arguments : arguments :=
  {| arg_api_key := None; arg_days_back := None |}.

Definition filename : string := "data/raw/nasa_data.json".

(** Truthiness of an [Optional[str]]. *)
Definition str_truthy (v : option string) : bool :=
  match v with
  | Some s => negb (bool_decide (s = EmptyString))
  | None => false
  end.

(** Line 14, run when the module is loaded:
    [os.getenv("api_key") or os.getenv("NASA_API_KEY")]. *)
Definition nasa_key (environ : gmap string string) : option string :=
  if str_truthy (environ !! "api_key") then environ !! "api_key"
  else environ !! "NASA_API_KEY".

(** [response.raise_for_status()] raises for 4xx and 5xx. *)
Definition http_error (status_code : N) : bool :=
  ((400 <=? status_code) && (status_code <? 600))%N.

(** [datetime.date] holds the days from [date.min], 0001-01-01 (day
    number 1), to [date.max], 9999-12-31 (day number 3652059). *)
Definition date_min : Z := 1.
Definition date_max : Z := 3652059.

(** 1970-01-01, the day the system clock counts from, is day number
    719163; in local time the clock shows at the earliest the day
    before. *)
Definition clock_min : Z := 719162.

(** What [datetime.now().date()] returns (line 32): the day the system
    clock shows, a [date] that is not before the clock's first day. *)
Record system_date : Type := {
  toordinal : Z;
  on_the_clock : Is_true ((clock_min <=? toordinal) && (toordinal <=? date_max))%Z
}.

(** [timedelta(days=n)] raises [OverflowError] beyond 999999999 days
    either way. *)
Definition timedelta (days : Z) : result Z :=
  if ((-999999999 <=? days) && (days <=? 999999999))%Z then Ok days
  else Raise OverflowError.

(** [d - delta] on a [date] raises [OverflowError] when the day it
    computes is not a [date]. *)
Definition date_sub (d delta : Z) : result Z :=
  let o := (d - delta)%Z in
  if ((date_min <=? o) && (o <=? date_max))%Z then Ok o
  else Raise OverflowError.

(** Lines 28-40: the request for the last [days_back] days.  Line 33
    can raise [OverflowError]; the dict of lines 35-40 is built from
    the two dates after that. *)
Definition params (key : string) (days_back : Z) (today : system_date) : result request :=
  let end_date := toordinal today in
  let* delta := timedelta days_back in
  let* start_date := date_sub end_date delta in
  Ok {| url := "https://api.nasa.gov/planetary/apod";
        api_key := key;
        start_date := start_date;
        end_date := end_date;
        thumbs := true |}.

(** [extract_nasa_data(api_key=nasa_key, days_back=8)], lines 17-55.
    [today] is [datetime.now().date()], [get] the remote API.  The raw
    directory exists already: line 11 creates it when the module is
    loaded. *)
Definition extract_nasa_data (environ : gmap string string) (args : arguments)
    (today : system_date) (get : request -> http_outcome) : result json * list event :=
  let api_key := default (nasa_key environ) (arg_api_key args) in
  let days_back := default 8%Z (arg_days_back args) in
  match api_key with
  | None => (Raise ValueError, [])
  | Some key =>
      if negb (str_truthy (Some key)) then (Raise ValueError, [])
      else
        match params key days_back today with
        | Raise e => (Raise e, [])
        | Ok params =>
            match get params with
            | NoResponse => (Raise RequestException, [HttpGet params])
            | Response status_code body =>
                if http_error status_code then (Raise HTTPError, [HttpGet params])
                else
                  match body with
                  | None => (Raise JSONDecodeError, [HttpGet params])
                  | Some data =>
                      let data := if is_dict data then JArr [data] else data in
                      let done := [HttpGet params; WriteJson filename data] in
                      match py_len data with
                      | Raise e => (Raise e, done)
                      | Ok _ => (Ok data, done)
                      end
                  end
            end
        end
  end.

End Extract.

(** ** [scripts/transform.py] *)

Module Transform.

(** One element of the list [records]: the dict with the five keys
    built at lines 27-33. *)
Record staged_row : Type := {
  date : json;
  title : json;
  explanation : json;
  media_type : json;
  image_url : json
}.

(** The table handed to [to_csv]: the column names and the rows, in
    order.  [to_csv(index=False)] writes the column names as the header
    line and then one CSV record per row; a [None] cell becomes an
    empty field. *)
Record csv_file : Type := {
  header : list string;
  rows : list staged_row
}.

(** The state of [data/raw/nasa_data.json] when the script starts:
    not there; there, but [open] and [json.load] of lines 17-18 raise
    [e] on it ([JSONDecodeError] for text that is not JSON,
    [UnicodeDecodeError] for bytes that are not UTF-8, [RecursionError]
    for nesting deeper than the interpreter allows); or holding a JSON
    value. *)
Inductive raw_artifact : Type :=
| Absent
| Unreadable (e : exn)
| Holds (data : json).

Inductive event : Type :=
| Mkdir (path : string)
| WriteCsv (path : string) (content : csv_file).

Definition staged_dir : string := "data/staged".
Definition output_path : string := "data/staged/nasa_data_staged.csv".

(** Lines 27-33: the dict appended for one input record. *)
Definition project (record : gmap string json) : staged_row :=
  {| date := dict_get record "date";
     title := dict_get record "title";
     explanation := dict_get record "explanation";
     media_type := dict_get_default record "media_type" (JStr "image");
     image_url := py_or (dict_get record "url") (dict_get record "thumbnail_url") |}.

(** Lines 25-33: [records = []], then the loop appending one dict per
    item.  [record.get] exists on dicts only: any other item raises
    [AttributeError]. *)
Fixpoint loop (data : list json) (records : list staged_row) : result (list staged_row) :=
  match data with
  | [] => Ok records
  | JObj record :: rest => loop rest (records ++ [project record])
  | _ :: _ => Raise AttributeError
  end.

Definition columns : list string :=
  ["date"; "title"; "explanation"; "media_type"; "image_url"].

(** [pd.DataFrame(records)]: the columns are the keys of the dicts; an
    empty list gives a frame with no column at all. *)
Definition DataFrame (records : list staged_row) : csv_file :=
  {| header := match records with [] => [] | _ :: _ => columns end;
     rows := records |}.

(** [transform_nasa_data()], lines 8-41.  The staged directory is
    created first (line 12), before the raw artifact is looked at. *)
Definition transform_nasa_data (raw : raw_artifact) : result csv_file * list event :=
  let made := [Mkdir staged_dir] in
  match raw with
  | Absent => (Raise FileNotFoundError, made)
  | Unreadable e => (Raise e, made)
  | Holds data =>
      let data := if is_dict data then JArr [data] else data in
      match bind (py_iter data) (fun items => loop items []) with
      | Raise e => (Raise e, made)
      | Ok records =>
          let df := DataFrame records in
          (Ok df, made ++ [WriteCsv output_path df])
      end
  end.

(** The files written during a run. *)
Definition written (evs : list event) : list csv_file :=
  omap (fun e => match e with WriteCsv _ c => Some c | Mkdir _ => None end) evs.

End Transform.

(** ** [scripts/load.py] *)

Module Loader.

(** A cell of a row dict of line 33, [batch.where(pd.notnull(batch),
    None).to_dict("records")]: a string; [None], which is what [where]
    puts for an empty field of a column of strings; or a scalar that is
    not a string, kept with the text [str()] gives it: a number or a
    boolean of a column pandas read as numeric, and also the NaN that
    stays NaN in a column of floats ([COther "nan"]). *)
Inductive cell : Type :=
| CStr (s : string)
| CNull
| COther (shown : string).

#[global] Instance cell_eq_dec : EqDecision cell.
Proof. solve_decision. Defined.

(** A frame: its column names and its rows; [to_dict("records")] turns
    each row into a dict from column name to cell. *)
Record dataframe : Type := {
  df_columns : list string;
  df_rows : list (gmap string cell)
}.

(** A pandas [Timestamp]: the calendar fields, the fraction of the
    second in nanoseconds, and the offset from UTC in minutes when the
    value carries a time zone. *)
Record datetime : Type := {
  year : nat;
  month : nat;
  day : nat;
  hour : nat;
  minute : nat;
  second : nat;
  nanosecond : N;
  utcoffset : option Z
}.

Definition digit (n : nat) : ascii := ascii_of_nat (48 + n `mod` 10).

Definition pad2 (n : nat) : string :=
  String (digit (n `div` 10)) (String (digit n) EmptyString).

(** A [Timestamp] lies between the years 1677 and 2262: four digits. *)
Definition pad4 (n : nat) : string :=
  String (digit (n `div` 1000)) (String (digit (n `div` 100)) (pad2 n)).

(** [strftime('%Y-%m-%d %H:%M:%S')]: the format names six fields; the
    fraction of the second and the offset are not printed. *)
Definition strftime (t : datetime) : string :=
  pad4 (year t) +:+ "-" +:+ pad2 (month t) +:+ "-" +:+ pad2 (day t) +:+ " " +:+
  pad2 (hour t) +:+ ":" +:+ pad2 (minute t) +:+ ":" +:+ pad2 (second t).

(** [.dt.strftime] on a column of timestamps: NaT stays missing, and
    the [where] of line 33 hands it on as [None]. *)
Definition dt_strftime (t : option datetime) : cell :=
  match t with
  | Some t => CStr (strftime t)
  | None => CNull
  end.

(** The answer of the RPC endpoint to a POST. *)
Record response : Type := {
  status_code : N;
  text : string
}.

(** [resp.ok]: the status is neither 4xx nor 5xx. *)
Definition ok (resp : response) : bool :=
  negb ((400 <=? status_code resp) && (status_code resp <? 600))%N.

Definition batch_size : nat := 20.

(** [range(start, stop, step)] for [step >= 1], unrolled at most [fuel]
    times. *)
Fixpoint range_from (fuel start stop step : nat) : list nat :=
  match fuel with
  | O => []
  | S fuel =>
      if start <? stop then start :: range_from fuel (start + step) stop step
      else []
  end.

(** [range(0, stop, step)]: it has at most [stop] elements. *)
Definition range (stop step : nat) : list nat := range_from stop 0 stop step.

(** [df.iloc[i:j]] *)
Definition iloc {A} (l : list A) (i j : nat) : list A := take (j - i) (drop i l).

(** The batches the loop of line 31 visits, in order. *)
Definition batches {A} (l : list A) : list (list A) :=
  (fun i => iloc l i (i + batch_size)) <$> range (length l) batch_size.

(** [r[k]] *)
Definition getitem (r : gmap string cell) (k : string) : result cell :=
  match r !! k with
  | Some v => Ok v
  | None => Raise KeyError
  end.

Definition quote : ascii := "'"%char.

(** [v.replace("'", "''")]: only a [str] has the method. *)
Definition escape (v : cell) : result string :=
  match v with
  | CStr s => Ok (replace_char quote "''" s)
  | CNull | COther _ => Raise AttributeError
  end.

(** [f"{v}"]: [str(None)] is [None]; a float NaN prints through its
    [COther] text. *)
Definition format (v : cell) : string :=
  match v with
  | CStr s => s
  | CNull => "None"
  | COther shown => shown
  end.

(** Lines 37-44: the parenthesised tuple appended to [values] for one
    row. *)
Definition value_tuple (r : gmap string cell) : result string :=
  let* date_val := getitem r "date" in
  let* title := getitem r "title" in
  let* title_val := escape title in
  let* explanation := getitem r "explanation" in
  let* explanation_val := escape explanation in
  let* media_type_val := getitem r "media_type" in
  let* image_url_val := escape (default (CStr EmptyString) (r !! "image_url")) in
  Ok ("('" +:+ format date_val +:+ "', '" +:+ title_val +:+ "', '" +:+
      explanation_val +:+ "', '" +:+ format media_type_val +:+ "', '" +:+
      image_url_val +:+ "')").

(** Lines 35-44: [values = []], then one tuple per row of the batch. *)
Fixpoint build_values (batch : list (gmap string cell)) (values : list string)
    : result (list string) :=
  match batch with
  | [] => Ok values
  | r :: rest =>
      let* v := value_tuple r in
      build_values rest (values ++ [v])
  end.

Definition nl : string := String (ascii_of_nat 10) EmptyString.

Definition sql_head : string :=
  nl +:+ "        INSERT INTO nasa_apod (date, title, explanation, media_type, image_url)" +:+
  nl +:+ "        VALUES ".

Definition sql_tail : string :=
  nl +:+ "        ON CONFLICT (date) DO UPDATE SET" +:+
  nl +:+ "            title = EXCLUDED.title," +:+
  nl +:+ "            explanation = EXCLUDED.explanation," +:+
  nl +:+ "            media_type = EXCLUDED.media_type," +:+
  nl +:+ "            image_url = EXCLUDED.image_url;" +:+
  nl +:+ "        ".

(** Lines 46-54 *)
Definition insert_sql (values : list string) : string :=
  sql_head +:+ join ", " values +:+ sql_tail.

(** The statement of one batch. *)
Definition statement (batch : list (gmap string cell)) : result string :=
  let* values := build_values batch [] in
  Ok (insert_sql values).

Section Run.

(** [pd.to_datetime] on a whole column: [None] when it raises (or when
    its result has no [.dt]), otherwise one timestamp (or NaT) per
    cell. *)
Context (to_datetime : list cell -> option (list (option datetime))).

(** The store behind [/rest/v1/rpc/execute_sql]: a state, and what a
    POST of a statement does to it and answers ([None]: no answer
    within 15 seconds).  URL and headers are the same in every call. *)
Context {remote : Type} (post : remote -> string -> option response * remote).

(** [df[name]] *)
Definition column (df : dataframe) (name : string) : result (list cell) :=
  if bool_decide (name ∈ df_columns df)
  then Ok ((fun r => default CNull (r !! name)) <$> df_rows df)
  else Raise KeyError.

(** [df[name] = values]; pandas refuses a column of another length. *)
Definition set_column (df : dataframe) (name : string) (values : list cell)
    : result dataframe :=
  if bool_decide (length values = length (df_rows df))
  then Ok {| df_columns :=
               if bool_decide (name ∈ df_columns df) then df_columns df
               else df_columns df ++ [name];
             df_rows := zip_with (fun r v => <[name := v]> r) (df_rows df) values |}
  else Raise ValueError.

(** Line 28 *)
Definition normalize_dates (df : dataframe) : result dataframe :=
  let* dates := column df "date" in
  match to_datetime dates with
  | None => Raise DateParseError
  | Some stamps => set_column df "date" (dt_strftime <$> stamps)
  end.

(** One request and its answer. *)
Definition exchange : Type := string * option response.

(** What a run leaves behind: its outcome, the requests sent with
    their answers, in order, and the state of the store. *)
Record run : Type := {
  outcome : result unit;
  sent : list exchange;
  store : remote
}.

(** Lines 31-72: the loop over the start indexes [i].  The progress
    line printed after a batch and the pause of half a second before
    the next one touch nothing that is modelled here. *)
Fixpoint upsert_from (rows : list (gmap string cell)) (starts : list nat)
    (s : remote) : run :=
  match starts with
  | [] => {| outcome := Ok tt; sent := []; store := s |}
  | i :: starts =>
      let batch := iloc rows i (i + batch_size) in
      match statement batch with
      | Raise e => {| outcome := Raise e; sent := []; store := s |}
      | Ok query =>
          let '(resp, s) := post s query in
          match resp with
          | None => {| outcome := Raise RequestException; sent := [(query, None)]; store := s |}
          | Some resp =>
              if ok resp then
                let rest := upsert_from rows starts s in
                {| outcome := outcome rest;
                   sent := (query, Some resp) :: sent rest;
                   store := store rest |}
              else
                {| outcome := Raise RuntimeError;
                   sent := [(query, Some resp)];
                   store := s |}
          end
      end
  end.

(** [load_to_supabase()], lines 18-74.  [staged] is the frame
    [pd.read_csv] reads from [data/staged/nasa_data_staged.csv], or
    [None] when the file does not exist (a file pandas cannot read is
    left out).  The client of line 15 is built when the module is
    loaded and is not used by the function. *)
Definition load_to_supabase (staged : option dataframe) (s : remote) : run :=
  match staged with
  | None => {| outcome := Raise FileNotFoundError; sent := []; store := s |}
  | Some df =>
      match normalize_dates df with
      | Raise e => {| outcome := Raise e; sent := []; store := s |}
      | Ok df =>
          upsert_from (df_rows df) (range (length (df_rows df)) batch_size) s
      end
  end.

End Run.

Arguments outcome {remote} _.
Arguments sent {remote} _.
Arguments store {remote} _.

End Loader.

(** ** The target store *)

Module Store.
Import Loader.

(** One parenthesised tuple of a VALUES list, its five literals read
    back. *)
Record tuple : Type := {
  t_date : string;
  t_title : string;
  t_explanation : string;
  t_media_type : string;
  t_image_url : string
}.

(** The four columns stored under a date. *)
Record stored : Type := {
  title : string;
  explanation : string;
  media_type : string;
  image_url : string
}.

Fixpoint strip_prefix (p s : string) : option string :=
  match p, s with
  | EmptyString, _ => Some s
  | String a p, String b s => if bool_decide (a = b) then strip_prefix p s else None
  | String _ _, EmptyString => None
  end.

(** A string literal after its opening quote: characters up to the
    closing quote, two quotes in a row standing for one.  Returns the
    value and the text after the closing quote. *)
Fixpoint literal_body (s : string) : option (string * string) :=
  match s with
  | EmptyString => None
  | String c rest =>
      if bool_decide (c = quote) then
        match rest with
        | String c' rest' =>
            if bool_decide (c' = quote)
            then '(v, out) ← literal_body rest'; Some (String quote v, out)
            else Some (EmptyString, rest)
        | EmptyString => Some (EmptyString, EmptyString)
        end
      else '(v, out) ← literal_body rest; Some (String c v, out)
  end.

Definition literal (s : string) : option (string * string) :=
  match s with
  | String c rest => if bool_decide (c = quote) then literal_body rest else None
  | EmptyString => None
  end.

Definition parse_tuple (s : string) : option (tuple * string) :=
  s ← strip_prefix "(" s;
  '(d, s) ← literal s; s ← strip_prefix ", " s;
  '(t, s) ← literal s; s ← strip_prefix ", " s;
  '(e, s) ← literal s; s ← strip_prefix ", " s;
  '(m, s) ← literal s; s ← strip_prefix ", " s;
  '(u, s) ← literal s; s ← strip_prefix ")" s;
  Some ({| t_date := d; t_title := t; t_explanation := e;
           t_media_type := m; t_image_url := u |}, s).

(** The tuples of a VALUES list that is followed by the ON CONFLICT
    clause of [load.py]. *)
Fixpoint parse_tuples (fuel : nat) (s : string) : option (list tuple) :=
  match fuel with
  | O => None
  | S fuel =>
      '(t, s) ← parse_tuple s;
      if bool_decide (s = sql_tail) then Some [t]
      else s ← strip_prefix ", " s; ts ← parse_tuples fuel s; Some (t :: ts)
  end.

Definition parse_statement (query : string) : option (list tuple) :=
  s ← strip_prefix sql_head query; parse_tuples (String.length s) s.

(** Insert the row, or overwrite the four columns of the row that has
    its date. *)
Definition upsert (table : gmap string stored) (t : tuple) : gmap string stored :=
  <[t_date t := {| title := t_title t; explanation := t_explanation t;
                   media_type := t_media_type t; image_url := t_image_url t |}]> table.

(** What one statement does when it proposes the same date twice: the
    rows are applied one after the other ([RowByRow], the reading of the
    design document), or the whole statement is refused
    ([RejectRepeated], PostgreSQL's rule that one INSERT ... ON CONFLICT
    DO UPDATE may not touch a row twice). *)
Inductive conflict_mode : Type :=
| RowByRow
| RejectRepeated.

Definition execute (mode : conflict_mode) (table : gmap string stored)
    (ts : list tuple) : option (gmap string stored) :=
  match mode with
  | RowByRow => Some (foldl upsert table ts)
  | RejectRepeated =>
      if bool_decide (NoDup (t_date <$> ts)) then Some (foldl upsert table ts)
      else None
  end.

Definition accepted : response := {| status_code := 200; text := EmptyString |}.
Definition rejected : response := {| status_code := 400; text := "statement failed" |}.

(** Modelled from the spec: the table [nasa_apod(date PRIMARY KEY,
    title, explanation, media_type, image_url)] behind the
    [execute_sql] endpoint, which is no part of the scripts.  It reads
    the statement text, runs the upsert keyed on [date] as one unit, and
    answers 200; a statement it cannot read or run changes nothing and
    is answered 400.  Only statements of the shape [load.py] writes are
    read. *)
Definition post (mode : conflict_mode) (table : gmap string stored) (query : string)
    : option response * gmap string stored :=
  match parse_statement query with
  | None => (Some rejected, table)
  | Some ts =>
      match execute mode table ts with
      | None => (Some rejected, table)
      | Some table => (Some accepted, table)
      end
  end.

End Store.

(** ** Stand-ins for the surroundings, used in the examples *)

Module Samples.

Import Loader.

(** A day the clock can show: 2024-04-24, day number 739000. *)
Definition day_739000 : Extract.system_date :=
  {| Extract.toordinal := 739000; Extract.on_the_clock := I |}.

(** An endpoint that gives the answers of a script, one per request,
    and accepts every request after the script's end. *)
Definition scripted (answers : list (option response)) (query : string)
    : option response * list (option response) :=
  match answers with
  | [] => (Some Store.accepted, [])
  | a :: rest => (a, rest)
  end.

Definition digit_value (c : ascii) : option nat :=
  let n := nat_of_ascii c in
  if (48 <=? n) && (n <=? 57) then Some (n - 48) else None.

Definition two_digits (a b : ascii) : option nat :=
  x ← digit_value a; y ← digit_value b; Some (10 * x + y).

(** [YYYY-MM-DD], the form the API gives its dates in. *)
Definition iso_date (s : string) : option datetime :=
  match s with
  | String y1 (String y2 (String y3 (String y4 (String h1 (String m1 (String m2
      (String h2 (String d1 (String d2 EmptyString))))))))) =>
      if bool_decide (h1 = "-"%char) && bool_decide (h2 = "-"%char) then
        c ← two_digits y1 y2; y ← two_digits y3 y4;
        m ← two_digits m1 m2; d ← two_digits d1 d2;
        if (1 <=? m) && (m <=? 12) && (1 <=? d) && (d <=? 31) then
          Some {| year := 100 * c + y; month := m; day := d;
                  hour := 0; minute := 0; second := 0;
                  nanosecond := 0; utcoffset := None |}
        else None
      else None
  | _ => None
  end.

(** [pd.to_datetime] on a column of ISO dates and missing values; it
    raises on anything else. *)
Definition iso_to_datetime (dates : list cell) : option (list (option datetime)) :=
  mapM (fun c => match c with
                 | CStr s => Some <$> iso_date s
                 | CNull => Some None
                 | COther _ => None
                 end) dates.

(** A staged row with all five columns filled. *)
Definition row (d t e m u : string) : gmap string cell :=
  <["date" := CStr d]> (<["title" := CStr t]> (<["explanation" := CStr e]>
    (<["media_type" := CStr m]> (<["image_url" := CStr u]> ∅)))).

Definition frame (rows : list (gmap string cell)) : dataframe :=
  {| df_columns := ["date"; "title"; "explanation"; "media_type"; "image_url"];
     df_rows := rows |}.

Definition plain : gmap string cell :=
  row "2024-01-01" "Moon" "e" "image" "u".

(** Forty-five staged rows. *)
Definition staged45 : dataframe := frame (replicate 45 plain).

(** Twenty full rows, then one whose title field is empty. *)
Definition staged21 : dataframe :=
  frame (replicate 20 plain ++ [<["title" := CNull]> plain]).

(** A row for the given day of 2024. *)
Definition filler (m d : nat) : gmap string cell :=
  row ("2024-" +:+ pad2 m +:+ "-" +:+ pad2 d) "t" "e" "image" "u".

(** A media type that closes its own literal and the tuple, and opens
    a second tuple for the first of January. *)
Definition crafted_media_type : string :=
  "image', 'u'), ('2024-01-01 00:00:00', 'EVIL', 'e', 'image".

Definition first_A : gmap string cell := row "2024-01-01" "A" "e" "image" "u".
Definition then_B : gmap string cell := row "2024-01-01" "B" "e" "image" "u".
Definition crafted : gmap string cell :=
  row "2024-03-01" "C" "e" crafted_media_type "u".

(** Two rows for the first of January, titles A and then B. *)
Definition staged2 : dataframe := frame [first_A; then_B].

(** [staged2] after line 28. *)
Definition staged2_normalised : dataframe :=
  frame [<["date" := CStr "2024-01-01 00:00:00"]> first_A;
         <["date" := CStr "2024-01-01 00:00:00"]> then_B].

(** A store that accepts every request and keeps nothing. *)
Definition accepting (s : unit) (query : string) : option response * unit :=
  (Some Store.accepted, s).

(** The same two rows and a crafted row for another day, all in one
    batch. *)
Definition staged3 : dataframe := frame [first_A; then_B; crafted].

(** The same three rows in three different batches: rows 0, 20 and
    40 of forty-one, the others on days of their own. *)
Definition staged41 : dataframe :=
  frame ([first_A] ++ (filler 1 <$> seq 2 19) ++
         [then_B] ++ (filler 2 <$> seq 2 19) ++ [crafted]).

End Samples.

(** ** Notions the statements below use *)

Module Notions.
Import Loader.

(** The ceiling of [n / d]. *)
Definition ceil_div (n d : nat) : nat :=
  if decide (n `mod` d = 0) then n `div` d else n `div` d + 1.

(** The request was answered, and with a success status. *)
Definition answered_ok (x : string * option response) : Prop :=
  ∃ resp, x.2 = Some resp ∧ ok resp = true.

(** The state a store is in after it received the given requests, in
    order, and nothing else. *)
Definition replay {remote : Type} (post : remote -> string -> option response * remote)
    (s : remote) (queries : list string) : remote :=
  foldl (fun s q => (post s q).2) s queries.

(** A cell [escape] cannot be called on because the value is missing:
    the column is absent or the field is empty. *)
Definition missing (v : option cell) : Prop := v = None ∨ v = Some CNull.

(** The text holds no single quote. *)
Fixpoint quote_free (s : string) : bool :=
  match s with
  | EmptyString => true
  | String c rest => negb (bool_decide (c = quote)) && quote_free rest
  end.

Definition as_str (v : cell) : option string :=
  match v with
  | CStr s => Some s
  | CNull | COther _ => None
  end.

(** The five values a staged row stands for: the texts of its date
    and media type, and its title, explanation and image URL, which
    have to be strings (no [image_url] column counts as the empty
    string, as in line 41). *)
Definition tuple_of_row (r : gmap string cell) : option Store.tuple :=
  d ← r !! "date";
  t ← r !! "title" ≫= as_str;
  e ← r !! "explanation" ≫= as_str;
  m ← r !! "media_type";
  u ← as_str (default (CStr EmptyString) (r !! "image_url"));
  Some {| Store.t_date := format d; Store.t_title := t; Store.t_explanation := e;
          Store.t_media_type := format m; Store.t_image_url := u |}.

(** The text of a tuple whose title, explanation and image URL have
    their quotes doubled. *)
Definition tuple_text (t : Store.tuple) : string :=
  "('" +:+ Store.t_date t +:+ "', '" +:+
  replace_char quote "''" (Store.t_title t) +:+ "', '" +:+
  replace_char quote "''" (Store.t_explanation t) +:+ "', '" +:+
  Store.t_media_type t +:+ "', '" +:+
  replace_char quote "''" (Store.t_image_url t) +:+ "')".

(** What the store keeps of a tuple. *)
Definition stored_of (t : Store.tuple) : Store.stored :=
  {| Store.title := Store.t_title t; Store.explanation := Store.t_explanation t;
     Store.media_type := Store.t_media_type t; Store.image_url := Store.t_image_url t |}.

(** The two values of a tuple that are written without escaping hold
    no quote. *)
Definition readable (t : Store.tuple) : Prop :=
  quote_free (Store.t_date t) = true ∧ quote_free (Store.t_media_type t) = true.

(** A staged row the loop can write a tuple for, once its date is
    normalised: title and explanation are strings, the media type is
    there, and the image URL is a string or its column is absent. *)
Definition loadable (r : gmap string cell) : Prop :=
  (∃ t, r !! "title" = Some (CStr t))
  ∧ (∃ e, r !! "explanation" = Some (CStr e))
  ∧ is_Some (r !! "media_type")
  ∧ (r !! "image_url" = None ∨ ∃ u, r !! "image_url" = Some (CStr u)).

(** A timestamp whose fields fit the widths [strftime] prints them in. *)
Definition in_range (t : datetime) : Prop :=
  year t < 100 * 100 ∧ month t < 100 ∧ day t < 100
  ∧ hour t < 100 ∧ minute t < 100 ∧ second t < 100.

(** Two timestamps that agree on the six fields [strftime] prints. *)
Definition same_second (t1 t2 : datetime) : Prop :=
  year t1 = year t2 ∧ month t1 = month t2 ∧ day t1 = day t2
  ∧ hour t1 = hour t2 ∧ minute t1 = minute t2 ∧ second t1 = second t2.

End Notions.

(** * Theorems *)

(** ** The transformer *)

Section TransformFacts.
Import Transform.

Lemma loop_objects (recs : list (gmap string json)) (acc : list staged_row) :
  loop (JObj <$> recs) acc = Ok (acc ++ (project <$> recs)).
Proof.
  revert acc. induction recs as [|r recs IH]; intros acc; simpl.
  - by rewrite app_nil_r.
  - rewrite IH. by rewrite <- app_assoc.
Qed.

(** C4.  A raw artifact holding a list of [k] records is written as one
    table whose rows are the projections of the records, one per
    record and in the order of the input: nothing is filtered and
    records sharing a date all stay.  A single object is handled as the
    one-element list.  The header holds the five column names (pandas
    has no column to name when the list is empty). *)
Theorem transform_one_row_per_record (recs : list (gmap string json))
    (o : gmap string json) :
  (∃ table,
      transform_nasa_data (Holds (JArr (JObj <$> recs)))
        = (Ok table, [Mkdir staged_dir; WriteCsv output_path table])
      ∧ rows table = project <$> recs
      ∧ length (rows table) = length recs
      ∧ header table = match recs with [] => [] | _ :: _ => columns end)
  ∧ (∃ table,
      transform_nasa_data (Holds (JObj o))
        = (Ok table, [Mkdir staged_dir; WriteCsv output_path table])
      ∧ rows table = [project o]
      ∧ header table = columns).
Proof.
  split.
  - exists (DataFrame (project <$> recs)).
    unfold transform_nasa_data. cbn [is_dict py_iter bind].
    rewrite loop_objects. cbn [app].
    repeat split.
    + cbn [rows DataFrame]. by rewrite length_fmap.
    + by destruct recs.
  - exists (DataFrame [project o]). by repeat split.
Qed.

(** C5, as the code has it.  [image_url] is the [url] field when that
    field is present and truthy, otherwise the [thumbnail_url] field,
    and [None] when that one is absent. *)
Theorem image_url_fallback (record : gmap string json) :
  image_url (project record) =
    match record !! "url", record !! "thumbnail_url" with
    | Some u, Some t => if truthy u then u else t
    | Some u, None => if truthy u then u else JNull
    | None, Some t => t
    | None, None => JNull
    end.
Proof.
  unfold project, py_or, dict_get; cbn [image_url].
  destruct (record !! "url") as [u|], (record !! "thumbnail_url") as [t|];
    by cbn [default truthy].
Qed.

(** C5 as stated fails: a record whose [url] field is present but
    empty gets the thumbnail, not its [url]. *)
Lemma image_url_present_but_empty :
  let record : gmap string json :=
    <["url" := JStr EmptyString]> (<["thumbnail_url" := JStr "t.jpg"]> ∅) in
  record !! "url" = Some (JStr EmptyString)
  ∧ image_url (project record) = JStr "t.jpg"
  ∧ image_url (project record) ≠ JStr EmptyString.
Proof. by vm_compute. Qed.

End TransformFacts.

(** ** The fetcher *)

Section ExtractFacts.
Import Extract.


(** C8.  With a key, a date range that line 33 can compute, and an
    answer that is no HTTP error, an object is written (and returned)
    as the list holding just that object, and a list is written as it
    came: the written collection has as many items as the API
    returned. *)
Theorem extract_keeps_every_item (environ : gmap string string) (args : arguments)
    (today : system_date) (get : request -> http_outcome) (key : string)
    (req : request) (status : N) (body : json) :
  default (nasa_key environ) (arg_api_key args) = Some key →
  key ≠ EmptyString →
  params key (default 8%Z (arg_days_back args)) today = Ok req →
  http_error status = false →
  get req = Response status (Some body) →
  (∀ o, body = JObj o →
     extract_nasa_data environ args today get
       = (Ok (JArr [JObj o]), [HttpGet req; WriteJson filename (JArr [JObj o])])
     ∧ py_len (JArr [JObj o]) = Ok 1)
  ∧ (∀ l, body = JArr l →
     extract_nasa_data environ args today get
       = (Ok (JArr l), [HttpGet req; WriteJson filename (JArr l)])
     ∧ py_len (JArr l) = Ok (length l)).
Proof.
  intros Hkey Hne Hreq Hst Hget.
  assert (Htruthy : str_truthy (Some key) = true).
  { unfold str_truthy. by rewrite bool_decide_eq_false_2. }
  unfold extract_nasa_data.
  rewrite Hkey, Htruthy. cbn [negb]. cbv zeta. rewrite Hreq, Hget, Hst.
  split; intros x ->; by cbn.
Qed.

Lemma extract_keeps_every_item_witness :
  let environ : gmap string string := {["api_key" := "DEMO_KEY"]} in
  let req := {| url := "https://api.nasa.gov/planetary/apod"; api_key := "DEMO_KEY";
                start_date := 738992; end_date := 739000; thumbs := true |} in
  let one := fun _ : request => Response 200 (Some (JObj ∅)) in
  let three := fun _ : request => Response 200 (Some (JArr [JObj ∅; JObj ∅; JObj ∅])) in
  (extract_nasa_data environ no_arguments Samples.day_739000 one
     = (Ok (JArr [JObj ∅]), [HttpGet req; WriteJson filename (JArr [JObj ∅])])
   ∧ py_len (JArr [JObj ∅]) = Ok 1)
  ∧ (extract_nasa_data environ no_arguments Samples.day_739000 three
       = (Ok (JArr [JObj ∅; JObj ∅; JObj ∅]),
          [HttpGet req; WriteJson filename (JArr [JObj ∅; JObj ∅; JObj ∅])])
     ∧ py_len (JArr [JObj ∅; JObj ∅; JObj ∅]) = Ok 3).
Proof.
  intros environ req one three. split.
  - refine (proj1 (extract_keeps_every_item environ no_arguments Samples.day_739000
      one "DEMO_KEY" req 200 (JObj ∅) _ _ _ _ _) ∅ eq_refl);
      [reflexivity | discriminate | reflexivity | reflexivity | reflexivity].
  - refine (proj2 (extract_keeps_every_item environ no_arguments Samples.day_739000
      three "DEMO_KEY" req 200 (JArr [JObj ∅; JObj ∅; JObj ∅]) _ _ _ _ _) _ eq_refl);
      [reflexivity | discriminate | reflexivity | reflexivity | reflexivity].
Defined.



End ExtractFacts.

(** ** The loader: batching *)

Ltac divmod n d :=
  pose proof (Nat.div_mod_eq n d);
  pose proof (Nat.mod_upper_bound n d ltac:(lia)).

Section BatchFacts.
Import Loader Notions.
Context {A : Type}.
Implicit Types l b : list A.

Lemma range_from_twenty (fuel j stop : nat) :
  stop ≤ 20 * (j + fuel) →
  range_from fuel (20 * j) stop 20
    = (fun k => 20 * k) <$> seq j ((stop + 19) `div` 20 - j).
Proof.
  revert j. induction fuel as [|fuel IH]; intros j Hfuel.
  - replace ((stop + 19) `div` 20 - j) with 0; [done|].
    divmod (stop + 19) 20. lia.
  - cbn [range_from]. destruct (20 * j <? stop) eqn:Hlt.
    + apply Nat.ltb_lt in Hlt.
      replace ((stop + 19) `div` 20 - j) with (S ((stop + 19) `div` 20 - S j))
        by (divmod (stop + 19) 20; lia).
      cbn [seq fmap list_fmap]. f_equal.
      replace (20 * j + 20) with (20 * S j) by lia.
      apply IH. lia.
    + apply Nat.ltb_ge in Hlt.
      replace ((stop + 19) `div` 20 - j) with 0; [done|].
      divmod (stop + 19) 20. lia.
Qed.

Lemma range_twenty (n : nat) :
  range n 20 = (fun k => 20 * k) <$> seq 0 ((n + 19) `div` 20).
Proof.
  pose proof (range_from_twenty n 0 n ltac:(lia)) as H.
  by rewrite Nat.mul_0_r, Nat.sub_0_r in H.
Qed.

Lemma iloc_twenty l (i : nat) : iloc l i (i + 20) = take 20 (drop i l).
Proof. unfold iloc. by replace (i + 20 - i) with 20 by lia. Qed.

Lemma batches_slices l :
  batches l
    = (fun k => take 20 (drop (20 * k) l)) <$> seq 0 ((length l + 19) `div` 20).
Proof.
  unfold batches, batch_size. rewrite range_twenty, <- list_fmap_compose.
  apply list_fmap_ext. intros _ k _. apply iloc_twenty.
Qed.

Lemma ceil_div_twenty (n : nat) : ceil_div n 20 = (n + 19) `div` 20.
Proof.
  unfold ceil_div. divmod n 20. divmod (n + 19) 20. case_decide; lia.
Qed.

Lemma batches_length l : length (batches l) = ceil_div (length l) 20.
Proof.
  by rewrite batches_slices, length_fmap, length_seq, ceil_div_twenty.
Qed.

Lemma batches_lookup l (k : nat) b :
  batches l !! k = Some b ↔
  k < ceil_div (length l) 20 ∧ b = take 20 (drop (20 * k) l).
Proof.
  rewrite batches_slices, list_lookup_fmap, fmap_Some, ceil_div_twenty.
  split.
  - intros (k' & [-> ?]%lookup_seq & ->). done.
  - intros [? ->]. exists k. split; [|done]. by apply lookup_seq.
Qed.

(** Every batch but the last holds twenty rows; the last holds what is
    left. *)
Lemma batch_size_at l (k : nat) b :
  batches l !! k = Some b →
  length b = if decide (20 * (k + 1) ≤ length l) then 20 else length l `mod` 20.
Proof.
  intros [Hk ->]%batches_lookup. rewrite ceil_div_twenty in Hk.
  rewrite length_take, length_drop.
  divmod (length l + 19) 20. divmod (length l) 20.
  case_decide; lia.
Qed.

Lemma concat_slices l (j m : nat) :
  concat ((fun k => take 20 (drop (20 * k) l)) <$> seq j m)
    = take (20 * m) (drop (20 * j) l).
Proof.
  revert j. induction m as [|m IH]; intros j.
  - by rewrite Nat.mul_0_r.
  - cbn [seq fmap list_fmap concat]. rewrite IH.
    replace (20 * S j) with (20 * j + 20) by lia.
    rewrite <- drop_drop, take_take_drop. f_equal. lia.
Qed.

Lemma batches_concat l : concat (batches l) = l.
Proof.
  rewrite batches_slices, concat_slices, Nat.mul_0_r. cbn [drop].
  apply take_ge. divmod (length l + 19) 20. lia.
Qed.

(** The loop cuts any list of rows into consecutive batches: put end
    to end they give the rows back, there are [ceil_div n 20] of them,
    and each holds twenty rows except the last, which holds the rest. *)
Theorem batches_partition l :
  concat (batches l) = l
  ∧ length (batches l) = ceil_div (length l) 20
  ∧ ∀ k b, batches l !! k = Some b →
      b = take 20 (drop (20 * k) l)
      ∧ length b = if decide (20 * (k + 1) ≤ length l) then 20
                   else length l `mod` 20.
Proof.
  split; [apply batches_concat|]. split; [apply batches_length|].
  intros k b Hb. split; [by apply batches_lookup in Hb as [_ ->]|].
  by apply batch_size_at.
Qed.

End BatchFacts.

(** ** The loader: one run *)

Section RunFacts.
Import Loader Notions.

Context (to_datetime : list cell -> option (list (option datetime))).
Context {remote : Type} (post : remote -> string -> option response * remote).

Implicit Types rows batch : list (gmap string cell).
Implicit Types starts : list nat.
Implicit Types s : remote.

(** One turn of the loop: the cases of [upsert_from] on a non-empty list
    of start indexes. *)
Ltac turn i rows s query resp s' Hstmt Hpost Hok :=
  cbn [upsert_from];
  destruct (statement (iloc rows i (i + batch_size))) as [query|?] eqn:Hstmt;
  [destruct (post s query) as [[resp|] s'] eqn:Hpost;
   [destruct (ok resp) eqn:Hok|]|];
  cbn [outcome sent store].

Lemma value_tuple_raises (r : gmap string cell) (e : exn) :
  value_tuple r = Raise e → e = KeyError ∨ e = AttributeError.
Proof.
  unfold value_tuple, getitem, escape.
  repeat (match goal with
          | |- context [match ?x !! ?k with _ => _ end] => destruct (x !! k) as [[]|]
          | |- context [default _ (?x !! ?k)] => destruct (x !! k) as [[]|]
          end; cbn [bind default]);
    intros [=]; auto.
Qed.

Lemma build_values_raises batch (values : list string) (e : exn) :
  build_values batch values = Raise e → e = KeyError ∨ e = AttributeError.
Proof.
  revert values. induction batch as [|r batch IH]; intros values; cbn [build_values].
  - done.
  - destruct (value_tuple r) as [v|e'] eqn:Hv; cbn [bind].
    + apply IH.
    + intros [= <-]. by eapply value_tuple_raises.
Qed.

Lemma statement_raises batch (e : exn) :
  statement batch = Raise e → e = KeyError ∨ e = AttributeError.
Proof.
  unfold statement.
  destruct (build_values batch []) as [vs|e'] eqn:Hvs; cbn [bind]; [done|].
  intros [= <-]. by eapply build_values_raises.
Qed.

(** A row without a usable title or explanation has no tuple. *)
Lemma value_tuple_missing (r : gmap string cell) :
  missing (r !! "title") ∨ missing (r !! "explanation") →
  ∃ e, value_tuple r = Raise e.
Proof.
  unfold missing, value_tuple, getitem, escape.
  destruct (r !! "date") as [d|]; cbn [bind]; [|by eauto].
  destruct (r !! "title") as [[t| |t]|]; cbn [bind]; try by eauto.
  destruct (r !! "explanation") as [[x| |x]|]; cbn [bind]; try by eauto.
  intros [[[=]|[=]]|[[=]|[=]]].
Qed.

Lemma value_tuple_empty_image_url (r : gmap string cell) :
  r !! "image_url" = Some CNull → ∃ e, value_tuple r = Raise e.
Proof.
  intros Hu. unfold value_tuple, getitem, escape. rewrite Hu.
  destruct (r !! "date") as [d|]; cbn [bind]; [|by eauto].
  destruct (r !! "title") as [[t| |t]|]; cbn [bind]; try by eauto.
  destruct (r !! "explanation") as [[x| |x]|]; cbn [bind]; try by eauto.
  destruct (r !! "media_type") as [m|]; cbn [bind default]; by eauto.
Qed.

Lemma build_values_stops batch (values : list string) (r : gmap string cell) (e : exn) :
  r ∈ batch → value_tuple r = Raise e →
  ∃ e', build_values batch values = Raise e'.
Proof.
  intros Hin Hr. revert values.
  induction batch as [|r' batch IH]; intros values; [by apply elem_of_nil in Hin|].
  cbn [build_values].
  destruct (value_tuple r') as [v|e'] eqn:Hv; cbn [bind]; [|by eauto].
  apply elem_of_cons in Hin as [->|Hin]; [congruence|]. by apply IH.
Qed.

Lemma statement_stops batch (r : gmap string cell) (e : exn) :
  r ∈ batch → value_tuple r = Raise e → ∃ e', statement batch = Raise e'.
Proof.
  intros Hin Hr. unfold statement.
  destruct (build_values_stops batch [] r e Hin Hr) as [e' ->]. by eauto.
Qed.

(** The requests of a run are the statements of the first batches, in
    the order of the batches. *)
Lemma upsert_from_sent rows starts s :
  Forall2 (fun x i => statement (iloc rows i (i + batch_size)) = Ok x.1)
    (sent (upsert_from post rows starts s))
    (take (length (sent (upsert_from post rows starts s))) starts).
Proof.
  revert s. induction starts as [|i starts IH]; intros s; [by constructor|].
  turn i rows s query resp s' Hstmt Hpost Hok; cbn [length take];
    repeat constructor; done.
Qed.

(** The store is touched by the requests of the run and by nothing
    else. *)
Lemma upsert_from_store rows starts s :
  store (upsert_from post rows starts s)
    = replay post s (sent (upsert_from post rows starts s)).*1.
Proof.
  revert s. induction starts as [|i starts IH]; intros s; [done|].
  turn i rows s query resp s' Hstmt Hpost Hok;
    cbn [fmap list_fmap replay foldl fst]; rewrite ?Hpost; cbn [snd]; try done.
Qed.

(** A run that completes has sent one accepted request per batch. *)
Lemma upsert_from_completes rows starts s :
  outcome (upsert_from post rows starts s) = Ok tt →
  length (sent (upsert_from post rows starts s)) = length starts
  ∧ Forall answered_ok (sent (upsert_from post rows starts s)).
Proof.
  revert s. induction starts as [|i starts IH]; intros s; [done|].
  turn i rows s query resp s' Hstmt Hpost Hok; try done.
  intros [Hlen Hall]%IH. split; [cbn [length]; by rewrite Hlen|].
  constructor; [|done]. by exists resp.
Qed.

(** A refused request is the last one of its run; the run ends in
    [RuntimeError] and every request before was accepted. *)
Lemma upsert_from_refused rows starts s (q : string) (resp : response) :
  (q, Some resp) ∈ sent (upsert_from post rows starts s) → ok resp = false →
  outcome (upsert_from post rows starts s) = Raise RuntimeError
  ∧ ∃ earlier,
      sent (upsert_from post rows starts s) = earlier ++ [(q, Some resp)]
      ∧ Forall answered_ok earlier.
Proof.
  intros Hin Hbad. revert s Hin.
  induction starts as [|i starts IH]; intros s; [by intros ?%elem_of_nil|].
  turn i rows s query resp' s' Hstmt Hpost Hok.
  - intros [[= -> ->]|Hin]%elem_of_cons; [congruence|].
    destruct (IH _ Hin) as (Hout & earlier & -> & Hall).
    split; [done|]. exists ((query, Some resp') :: earlier). split; [done|].
    constructor; [by exists resp'|done].
  - intros [= -> ->]%list_elem_of_singleton. split; [done|]. by exists [].
  - by intros [=]%list_elem_of_singleton.
  - by intros ?%elem_of_nil.
Qed.

(** [RuntimeError] comes from a refused request only. *)
Lemma upsert_from_runtime_error rows starts s :
  outcome (upsert_from post rows starts s) = Raise RuntimeError →
  ∃ q resp, last (sent (upsert_from post rows starts s)) = Some (q, Some resp)
            ∧ ok resp = false.
Proof.
  revert s. induction starts as [|i starts IH]; intros s; [done|].
  turn i rows s query resp s' Hstmt Hpost Hok.
  - intros (q & resp' & Hlast & Hbad)%IH. exists q, resp'. split; [|done].
    destruct (sent (upsert_from post rows starts s')); [done|]. by rewrite last_cons, Hlast.
  - intros _. by exists query, resp.
  - done.
  - intros [= ->]. by destruct (statement_raises _ _ Hstmt).
Qed.

(** A batch without a statement is never sent, and neither is any
    batch after it. *)
Lemma upsert_from_stops rows starts s (k i : nat) (e : exn) :
  starts !! k = Some i →
  statement (iloc rows i (i + batch_size)) = Raise e →
  (∃ e', outcome (upsert_from post rows starts s) = Raise e')
  ∧ length (sent (upsert_from post rows starts s)) ≤ k.
Proof.
  intros Hk Hbad. revert k s Hk.
  induction starts as [|i' starts IH]; intros k s Hk; [done|].
  destruct k as [|k].
  - injection Hk as ->. cbn [upsert_from]. rewrite Hbad. cbn. by eauto.
  - cbn in Hk.
    turn i' rows s query resp s' Hstmt Hpost Hok;
      try (split; [by eauto|cbn [length]; lia]).
    destruct (IH k s' Hk) as [? ?]. split; [done|cbn [length]; lia].
Qed.

(** Line 28 keeps the rows and their order and rewrites the [date]
    cell only, to the text of a timestamp or to a missing value. *)
Lemma normalize_dates_rows (df df' : dataframe) :
  normalize_dates to_datetime df = Ok df' →
  length (df_rows df') = length (df_rows df)
  ∧ Forall2 (fun r r' => ∃ x, r' = <["date" := dt_strftime x]> r)
      (df_rows df) (df_rows df').
Proof.
  unfold normalize_dates, column, set_column.
  case_bool_decide; cbn [bind]; [|done].
  destruct (to_datetime _) as [stamps|]; [|done].
  case_bool_decide as Hlen; [|done].
  intros [= <-]. cbn [df_rows]. split.
  - by apply length_zip_with_l_eq.
  - rewrite length_fmap in Hlen. clear -Hlen.
    revert stamps Hlen. induction (df_rows df) as [|r rows IH];
      intros [|x stamps] Hlen; try done; cbn; constructor.
    + by exists x.
    + apply IH. cbn in Hlen. lia.
Qed.

Lemma normalize_dates_raises (df : dataframe) (e : exn) :
  normalize_dates to_datetime df = Raise e → e ≠ RuntimeError.
Proof.
  unfold normalize_dates, column, set_column.
  case_bool_decide; cbn [bind]; [|by intros [= <-]].
  destruct (to_datetime _) as [stamps|]; [|by intros [= <-]].
  case_bool_decide; [done|by intros [= <-]].
Qed.

Lemma range_lookup (n k : nat) :
  k < ceil_div n 20 → range n batch_size !! k = Some (20 * k).
Proof.
  intros Hk. unfold batch_size.
  rewrite range_twenty, list_lookup_fmap, <- ceil_div_twenty.
  by rewrite (proj2 (lookup_seq 0 _ k k)).
Qed.

(** The batch that holds row [j] is the batch number [j / 20]. *)
Lemma batch_of_row rows (j : nat) (r : gmap string cell) :
  rows !! j = Some r →
  j `div` 20 < ceil_div (length rows) 20
  ∧ r ∈ iloc rows (20 * (j `div` 20)) (20 * (j `div` 20) + batch_size).
Proof.
  intros Hr. pose proof (lookup_lt_Some _ _ _ Hr) as Hlt.
  rewrite ceil_div_twenty. divmod j 20. divmod (length rows + 19) 20.
  split; [lia|].
  unfold batch_size. rewrite iloc_twenty.
  apply list_elem_of_lookup. exists (j `mod` 20).
  rewrite lookup_take_lt, lookup_drop by lia.
  by replace (20 * j `div` 20 + j `mod` 20) with j by lia.
Qed.

(** C1, as the code has it.  The loop cuts the rows of the frame into
    consecutive batches of twenty, the last one holding the rest, and a
    run that completes has sent exactly one statement per batch, in the
    order of the batches: [ceil_div n 20] requests, each accepted. *)
Theorem load_sends_one_statement_per_batch (df : dataframe) (s : remote) :
  outcome (load_to_supabase to_datetime post (Some df) s) = Ok tt →
  ∃ df',
    normalize_dates to_datetime df = Ok df'
    ∧ length (df_rows df') = length (df_rows df)
    ∧ concat (batches (df_rows df')) = df_rows df'
    ∧ (∀ k b, batches (df_rows df') !! k = Some b →
         b = take 20 (drop (20 * k) (df_rows df'))
         ∧ length b = if decide (20 * (k + 1) ≤ length (df_rows df)) then 20
                      else length (df_rows df) `mod` 20)
    ∧ Forall2 (fun x b => statement b = Ok x.1)
        (sent (load_to_supabase to_datetime post (Some df) s))
        (batches (df_rows df'))
    ∧ Forall answered_ok (sent (load_to_supabase to_datetime post (Some df) s))
    ∧ length (sent (load_to_supabase to_datetime post (Some df) s))
        = ceil_div (length (df_rows df)) 20.
Proof.
  unfold load_to_supabase.
  destruct (normalize_dates to_datetime df) as [df'|e] eqn:Hnorm; [|done].
  intros Hok. exists df'.
  destruct (normalize_dates_rows df df' Hnorm) as [Hlen _].
  destruct (upsert_from_completes _ _ _ Hok) as [Hsent Hall].
  pose proof (upsert_from_sent (df_rows df')
    (range (length (df_rows df')) batch_size) s) as Hst.
  rewrite Hsent, firstn_all in Hst.
  repeat split; try done.
  - apply batches_concat.
  - by apply batches_lookup.
  - rewrite <- Hlen. by apply batch_size_at.
  - unfold batches. by apply Forall2_fmap_r.
  - rewrite Hsent, <- Hlen, <- (batches_length (df_rows df')).
    unfold batches. by rewrite length_fmap.
Qed.

(** C6.  When a request of a run is answered with a failure status,
    the run ends in [RuntimeError]; the refused request is the last one
    sent and was sent once, every request before it was accepted, the
    requests are the statements of the first batches in order, and the
    store is left as those requests left it: the loader sends nothing
    afterwards, neither a retry nor anything that undoes a batch. *)
Theorem refused_batch_ends_the_load (staged : option dataframe) (s : remote)
    (q : string) (resp : response) :
  (q, Some resp) ∈ sent (load_to_supabase to_datetime post staged s) →
  ok resp = false →
  outcome (load_to_supabase to_datetime post staged s) = Raise RuntimeError
  ∧ taxonomy RuntimeError = Some LoadError
  ∧ ∃ earlier df df',
      sent (load_to_supabase to_datetime post staged s) = earlier ++ [(q, Some resp)]
      ∧ Forall answered_ok earlier
      ∧ staged = Some df
      ∧ normalize_dates to_datetime df = Ok df'
      ∧ Forall2 (fun x b => statement b = Ok x.1)
          (earlier ++ [(q, Some resp)])
          (take (S (length earlier)) (batches (df_rows df')))
      ∧ store (load_to_supabase to_datetime post staged s)
          = (post (replay post s earlier.*1) q).2.
Proof.
  unfold load_to_supabase.
  destruct staged as [df|]; [|by intros ?%elem_of_nil].
  destruct (normalize_dates to_datetime df) as [df'|e] eqn:Hnorm;
    [|by intros ?%elem_of_nil].
  intros Hin Hbad.
  destruct (upsert_from_refused _ _ _ _ _ Hin Hbad) as (Hout & earlier & Hsent & Hall).
  split; [done|]. split; [done|].
  exists earlier, df, df'. repeat split; try done.
  - pose proof (upsert_from_sent (df_rows df')
      (range (length (df_rows df')) batch_size) s) as Hst.
    rewrite Hsent in Hst. rewrite length_app, Nat.add_1_r in Hst.
    unfold batches. rewrite <- fmap_take. by apply Forall2_fmap_r.
  - rewrite upsert_from_store, Hsent, fmap_app.
    unfold replay. by rewrite foldl_app.
Qed.

(** A row that has no tuple ends the run before the statement of its
    batch is sent. *)
Lemma row_without_tuple_stops_the_load (df : dataframe) (s : remote)
    (j : nat) (r : gmap string cell) :
  df_rows df !! j = Some r →
  (∀ v, ∃ e, value_tuple (<["date" := v]> r) = Raise e) →
  ∃ e,
    outcome (load_to_supabase to_datetime post (Some df) s) = Raise e
    ∧ length (sent (load_to_supabase to_datetime post (Some df) s)) ≤ j `div` 20
    ∧ (taxonomy e = Some LoadError →
       ∃ q resp,
         last (sent (load_to_supabase to_datetime post (Some df) s))
           = Some (q, Some resp)
         ∧ ok resp = false).
Proof.
  intros Hr Hbad. unfold load_to_supabase.
  destruct (normalize_dates to_datetime df) as [df'|e] eqn:Hnorm.
  - destruct (normalize_dates_rows df df' Hnorm) as [_ Hrows].
    destruct (Forall2_lookup_l _ _ _ _ _ Hrows Hr) as (r' & Hr' & x & ->).
    destruct (batch_of_row _ _ _ Hr') as [Hk Hin].
    destruct (Hbad (dt_strftime x)) as [e He].
    destruct (statement_stops _ _ _ Hin He) as [e' He'].
    destruct (upsert_from_stops (df_rows df') _ s _ _ _ (range_lookup _ _ Hk) He')
      as [[e'' Hout] Hlen].
    exists e''. split; [done|]. split; [done|].
    destruct e''; try done. intros _. by apply upsert_from_runtime_error.
  - exists e. cbn [outcome sent length]. split; [done|]. split; [lia|].
    intros Htax. destruct e; try done.
    by destruct (normalize_dates_raises df _ Hnorm).
Qed.

(** C10, as the code has it.  When a row has no title or no
    explanation, the run fails, and no statement is sent for the batch
    of that row nor for any later batch.  The error is a
    [RuntimeError] only when the last request sent, for an earlier
    batch, was refused. *)
Theorem missing_title_stops_before_its_batch (df : dataframe) (s : remote)
    (j : nat) (r : gmap string cell) :
  df_rows df !! j = Some r →
  missing (r !! "title") ∨ missing (r !! "explanation") →
  ∃ e,
    outcome (load_to_supabase to_datetime post (Some df) s) = Raise e
    ∧ length (sent (load_to_supabase to_datetime post (Some df) s)) ≤ j `div` 20
    ∧ (taxonomy e = Some LoadError →
       ∃ q resp,
         last (sent (load_to_supabase to_datetime post (Some df) s))
           = Some (q, Some resp)
         ∧ ok resp = false).
Proof.
  intros Hr Hmiss. apply (row_without_tuple_stops_the_load df s j r Hr).
  intros v. apply value_tuple_missing. by rewrite !lookup_insert_ne.
Qed.

(** The same happens for a row whose [image_url] field is empty: the
    default of line 41 covers an absent column only, and [None] has no
    [replace]. *)
Theorem empty_image_url_stops_before_its_batch (df : dataframe) (s : remote)
    (j : nat) (r : gmap string cell) :
  df_rows df !! j = Some r →
  r !! "image_url" = Some CNull →
  ∃ e,
    outcome (load_to_supabase to_datetime post (Some df) s) = Raise e
    ∧ length (sent (load_to_supabase to_datetime post (Some df) s)) ≤ j `div` 20
    ∧ (taxonomy e = Some LoadError →
       ∃ q resp,
         last (sent (load_to_supabase to_datetime post (Some df) s))
           = Some (q, Some resp)
         ∧ ok resp = false).
Proof.
  intros Hr Hnull. apply (row_without_tuple_stops_the_load df s j r Hr).
  intros v. apply value_tuple_empty_image_url. by rewrite lookup_insert_ne.
Qed.

End RunFacts.




(** ** The store: reading back what the loader wrote *)

Section TextFacts.
Import Loader Store Notions.

Lemma append_cons (x : ascii) (a b : string) : String x a +:+ b = String x (a +:+ b).
Proof. reflexivity. Qed.

Lemma append_nil (b : string) : EmptyString +:+ b = b.
Proof. reflexivity. Qed.

Lemma append_assoc (a b c : string) : (a +:+ b) +:+ c = a +:+ (b +:+ c).
Proof.
  induction a as [|x a IH]; [done|]. rewrite !append_cons. by f_equal.
Qed.

Lemma length_append (a b : string) :
  String.length (a +:+ b) = String.length a + String.length b.
Proof.
  induction a as [|x a IH]; [done|]. rewrite append_cons. cbn. by f_equal.
Qed.

Lemma strip_prefix_append (p rest : string) : strip_prefix p (p +:+ rest) = Some rest.
Proof.
  induction p as [|x p IH]; [by destruct rest|].
  rewrite append_cons. cbn. by rewrite bool_decide_eq_true_2.
Qed.

Lemma replace_quote_free (s : string) :
  quote_free s = true → replace_char quote "''" s = s.
Proof.
  induction s as [|c s IH]; cbn; [done|].
  case_bool_decide; cbn; [done|]. intros Hs. by rewrite IH.
Qed.

(** Doubling the quotes is undone by reading the literal. *)
Lemma literal_body_escaped (s rest : string) :
  (∀ r, rest ≠ String quote r) →
  literal_body (replace_char quote "''" s +:+ String quote rest) = Some (s, rest).
Proof.
  intros Hrest. induction s as [|c s IH]; cbn [replace_char].
  - rewrite append_nil. cbn. rewrite bool_decide_eq_true_2 by done.
    destruct rest as [|c' rest']; [done|].
    rewrite bool_decide_eq_false_2; [done|]. intros ->. by eapply Hrest.
  - case_bool_decide as Hc.
    + subst c. rewrite append_assoc, !append_cons, append_nil. cbn.
      rewrite !bool_decide_eq_true_2 by done. by rewrite IH.
    + rewrite append_cons. cbn.
      rewrite bool_decide_eq_false_2 by done. by rewrite IH.
Qed.

Lemma literal_escaped (s rest : string) :
  (∀ r, rest ≠ String quote r) →
  literal (String quote (replace_char quote "''" s +:+ String quote rest))
    = Some (s, rest).
Proof.
  intros Hrest. cbn [literal]. rewrite bool_decide_eq_true_2 by done.
  by apply literal_body_escaped.
Qed.

Lemma literal_raw (s rest : string) :
  quote_free s = true → (∀ r, rest ≠ String quote r) →
  literal (String quote (s +:+ String quote rest)) = Some (s, rest).
Proof.
  intros Hs Hrest. rewrite <- (replace_quote_free s Hs) at 1.
  by apply literal_escaped.
Qed.

Lemma strip_open (rest : string) : strip_prefix "(" (String "(" rest) = Some rest.
Proof. apply (strip_prefix_append "(" rest). Qed.

Lemma strip_close (rest : string) : strip_prefix ")" (String ")" rest) = Some rest.
Proof. apply (strip_prefix_append ")" rest). Qed.

Lemma strip_comma (rest : string) :
  strip_prefix ", " (String "," (String " " rest)) = Some rest.
Proof. apply (strip_prefix_append ", " rest). Qed.

(** A tuple is read back from its text, whatever follows it, when the
    two values written without escaping hold no quote. *)
Lemma parse_tuple_text (t : tuple) (rest : string) :
  quote_free (t_date t) = true → quote_free (t_media_type t) = true →
  parse_tuple (tuple_text t +:+ rest) = Some (t, rest).
Proof.
  destruct t as [d tt e m u]. unfold tuple_text. cbn [t_date t_title t_explanation t_media_type t_image_url].
  intros Hd Hm.
  rewrite !append_assoc, !append_cons, !append_nil.
  unfold parse_tuple.
  rewrite strip_open. cbn [mbind option_bind].
  rewrite (literal_raw d) by (done || by intros ? [=]). cbn [mbind option_bind].
  rewrite strip_comma. cbn [mbind option_bind].
  rewrite literal_escaped by (by intros ? [=]). cbn [mbind option_bind].
  rewrite strip_comma. cbn [mbind option_bind].
  rewrite literal_escaped by (by intros ? [=]). cbn [mbind option_bind].
  rewrite strip_comma. cbn [mbind option_bind].
  rewrite (literal_raw m) by (done || by intros ? [=]). cbn [mbind option_bind].
  rewrite strip_comma. cbn [mbind option_bind].
  rewrite literal_escaped by (by intros ? [=]). cbn [mbind option_bind].
  by rewrite strip_close.
Qed.

Lemma tuple_text_length (t : tuple) : 1 ≤ String.length (tuple_text t).
Proof. unfold tuple_text. rewrite !append_cons. cbn. lia. Qed.

Lemma join_length (ts : list tuple) :
  length ts ≤ String.length (join ", " (tuple_text <$> ts)).
Proof.
  induction ts as [|t [|t' ts] IH]; [done| |].
  - cbn. pose proof (tuple_text_length t). lia.
  - change (join ", " (tuple_text <$> t :: t' :: ts))
      with (tuple_text t +:+ ", " +:+ join ", " (tuple_text <$> t' :: ts)).
    rewrite !length_append. pose proof (tuple_text_length t).
    cbn [length] in *. lia.
Qed.

Lemma comma_is_not_tail (rest : string) : ", " +:+ rest ≠ sql_tail.
Proof. unfold sql_tail, nl. rewrite !append_cons. by intros [=]. Qed.

(** The tuples of a VALUES list are read back in order. *)
Lemma parse_tuples_join (ts : list tuple) (fuel : nat) :
  ts ≠ [] → length ts ≤ fuel →
  Forall (fun t => quote_free (t_date t) = true ∧ quote_free (t_media_type t) = true) ts →
  parse_tuples fuel (join ", " (tuple_text <$> ts) +:+ sql_tail) = Some ts.
Proof.
  revert fuel. induction ts as [|t [|t' ts] IH]; intros fuel Hne Hfuel Hall; [done| |].
  - destruct fuel as [|fuel]; [cbn in Hfuel; lia|].
    apply Forall_cons in Hall as [[Hd Hm] _].
    cbn [fmap list_fmap join parse_tuples].
    rewrite parse_tuple_text by done. cbn [mbind option_bind].
    by rewrite bool_decide_eq_true_2.
  - destruct fuel as [|fuel]; [cbn in Hfuel; lia|].
    apply Forall_cons in Hall as [[Hd Hm] Hall].
    change (join ", " (tuple_text <$> t :: t' :: ts))
      with (tuple_text t +:+ ", " +:+ join ", " (tuple_text <$> t' :: ts)).
    rewrite !append_assoc. cbn [parse_tuples].
    rewrite parse_tuple_text by done. cbn [mbind option_bind].
    rewrite bool_decide_eq_false_2 by apply comma_is_not_tail.
    rewrite strip_prefix_append. cbn [mbind option_bind].
    rewrite IH; [done|done| |done]. cbn [length] in *. lia.
Qed.

(** The statement of a batch is read back as the tuples of its rows. *)
Lemma parse_statement_insert_sql (ts : list tuple) :
  ts ≠ [] →
  Forall (fun t => quote_free (t_date t) = true ∧ quote_free (t_media_type t) = true) ts →
  parse_statement (insert_sql (tuple_text <$> ts)) = Some ts.
Proof.
  intros Hne Hall. unfold parse_statement, insert_sql.
  rewrite strip_prefix_append. cbn [mbind option_bind].
  apply parse_tuples_join; [done| |done].
  rewrite length_append. pose proof (join_length ts). lia.
Qed.

Lemma quote_free_append (a b : string) :
  quote_free (a +:+ b) = quote_free a && quote_free b.
Proof.
  induction a as [|x a IH]; [done|]. rewrite append_cons. cbn.
  rewrite IH. by destruct (negb _).
Qed.

Lemma digit_is_no_quote (n : nat) : digit n ≠ quote.
Proof.
  unfold digit. pose proof (Nat.mod_upper_bound n 10 ltac:(lia)) as Hlt.
  revert Hlt. generalize (n `mod` 10). intros k Hk.
  do 10 (destruct k as [|k]; [by vm_compute|]). lia.
Qed.

Lemma pad2_quote_free (n : nat) : quote_free (pad2 n) = true.
Proof.
  unfold pad2. cbn.
  rewrite !bool_decide_eq_false_2 by apply digit_is_no_quote. done.
Qed.

Lemma pad4_quote_free (n : nat) : quote_free (pad4 n) = true.
Proof.
  unfold pad4. cbn [quote_free].
  rewrite !bool_decide_eq_false_2 by apply digit_is_no_quote.
  apply pad2_quote_free.
Qed.

Lemma strftime_has_no_quote (t : datetime) : quote_free (strftime t) = true.
Proof.
  unfold strftime.
  by rewrite !quote_free_append, pad4_quote_free, !pad2_quote_free.
Qed.

(** The text of a timestamp holds no quote: doubling the quotes of a
    normalised date would change nothing. *)
Theorem strftime_quote_free (t : datetime) :
  quote_free (strftime t) = true
  ∧ replace_char quote "''" (strftime t) = strftime t.
Proof.
  split; [apply strftime_has_no_quote|].
  apply replace_quote_free, strftime_has_no_quote.
Qed.

Lemma strftime_length (t : datetime) : String.length (strftime t) = 19.
Proof. unfold strftime, pad4, pad2. by rewrite !length_append. Qed.

Lemma format_dt_strftime (x : option datetime) :
  quote_free (format (dt_strftime x)) = true.
Proof. destruct x as [t|]; [apply strftime_has_no_quote|done]. Qed.

End TextFacts.


(** ** The store: what a completed run leaves in the table *)

Section StoreFacts.
Import Loader Store Notions.

Context (to_datetime : list cell -> option (list (option datetime))).

Implicit Types rows batch : list (gmap string cell).
Implicit Types table : gmap string stored.

Lemma value_tuple_text (r : gmap string cell) (text : string) :
  value_tuple r = Ok text →
  ∃ t, tuple_of_row r = Some t ∧ text = tuple_text t.
Proof.
  unfold value_tuple, tuple_of_row, getitem, escape, as_str.
  destruct (r !! "date") as [d|]; cbn; [|done].
  destruct (r !! "title") as [[t| |t]|]; cbn; try done.
  destruct (r !! "explanation") as [[e| |e]|]; cbn; try done.
  destruct (r !! "media_type") as [m|]; cbn; [|done].
  destruct (r !! "image_url") as [[u| |u]|]; cbn; try done;
    intros [= <-]; by eexists.
Qed.

Lemma build_values_texts batch (values vs : list string) :
  build_values batch values = Ok vs →
  ∃ ts, Forall2 (fun r t => tuple_of_row r = Some t) batch ts
        ∧ vs = values ++ (tuple_text <$> ts).
Proof.
  revert values. induction batch as [|r batch IH]; intros values; cbn [build_values].
  - intros [= <-]. exists []. split; [constructor|]. by rewrite app_nil_r.
  - destruct (value_tuple r) as [text|] eqn:Hr; cbn [bind]; [|done].
    destruct (value_tuple_text r text Hr) as (t & Ht & ->).
    intros (ts & Hts & ->)%IH. exists (t :: ts). split; [by constructor|].
    by rewrite <- app_assoc.
Qed.

Lemma statement_text batch (q : string) :
  statement batch = Ok q →
  ∃ ts, Forall2 (fun r t => tuple_of_row r = Some t) batch ts
        ∧ q = insert_sql (tuple_text <$> ts).
Proof.
  unfold statement.
  destruct (build_values batch []) as [vs|] eqn:Hvs; cbn [bind]; [|done].
  destruct (build_values_texts _ _ _ Hvs) as (ts & Hts & ->).
  intros [= <-]. by exists ts.
Qed.

(** An accepted statement has upserted the tuples of its rows, in
    order, under either reading of repeated dates. *)
Lemma post_accepted (mode : conflict_mode) table table' (ts : list tuple)
    (resp : response) :
  ts ≠ [] → Forall readable ts →
  post mode table (insert_sql (tuple_text <$> ts)) = (Some resp, table') →
  ok resp = true →
  table' = foldl upsert table ts.
Proof.
  intros Hne Hall. unfold post, execute.
  rewrite parse_statement_insert_sql by done.
  destruct mode; [by intros [= <- <-]|].
  case_bool_decide; by intros [= <- <-].
Qed.

Lemma iloc_elem_of rows (i j : nat) (r : gmap string cell) :
  r ∈ iloc rows i j → r ∈ rows.
Proof.
  unfold iloc. intros (k & Hk & _)%elem_of_take.
  rewrite lookup_drop in Hk. by eapply list_elem_of_lookup_2.
Qed.

Lemma iloc_nonempty rows (i : nat) :
  i < length rows → iloc rows i (i + batch_size) ≠ [].
Proof.
  intros Hi Hnil. apply (f_equal length) in Hnil.
  unfold batch_size in Hnil. rewrite iloc_twenty, length_take, length_drop in Hnil.
  cbn [length] in Hnil. lia.
Qed.

(** After a run that completes, the table is the one it started from
    with the tuples of all batches upserted in order. *)
Lemma upsert_from_table (mode : conflict_mode) rows (starts : list nat) table :
  (∀ r t, r ∈ rows → tuple_of_row r = Some t → readable t) →
  (∀ i, i ∈ starts → i < length rows) →
  outcome (upsert_from (post mode) rows starts table) = Ok tt →
  ∃ ts,
    Forall2 (fun r t => tuple_of_row r = Some t)
      (concat ((fun i => iloc rows i (i + batch_size)) <$> starts)) ts
    ∧ store (upsert_from (post mode) rows starts table) = foldl upsert table ts.
Proof.
  intros Hread. revert table.
  induction starts as [|i starts IH]; intros table Hin.
  - intros _. exists []. split; [constructor|done].
  - cbn [upsert_from].
    destruct (statement (iloc rows i (i + batch_size))) as [q|] eqn:Hq; [|done].
    destruct (statement_text _ _ Hq) as (ts & Hts & ->).
    destruct (post mode table _) as [[resp|] table'] eqn:Hpost; [|done].
    destruct (ok resp) eqn:Hok; [|done]. cbn [outcome store].
    assert (table' = foldl upsert table ts) as ->.
    { eapply post_accepted; [| |done|done].
      - intros ->. apply Forall2_nil_inv_r in Hts.
        eapply iloc_nonempty; [|done]. apply Hin. by left.
      - apply Forall_forall. intros t Ht.
        apply list_elem_of_lookup in Ht as [k Hk].
        destruct (Forall2_lookup_r _ _ _ _ _ Hts Hk) as (r & Hr & Hrt).
        eapply Hread; [|done]. eapply iloc_elem_of.
        by eapply list_elem_of_lookup_2. }
    intros Hout.
    destruct (IH (foldl upsert table ts)) as (ts' & Hts' & Hstore); [|done|].
    { intros i' Hi'. apply Hin. by right. }
    exists (ts ++ ts'). split.
    + cbn [fmap list_fmap concat]. by apply Forall2_app.
    + by rewrite foldl_app.
Qed.

Lemma foldl_upsert_other table (ts : list tuple) (d : string) :
  (∀ t, t ∈ ts → t_date t ≠ d) →
  foldl upsert table ts !! d = table !! d.
Proof.
  revert table. induction ts as [|t ts IH]; intros table Hts; [done|].
  cbn [foldl]. rewrite IH by (intros t' Ht'; apply Hts; by right).
  unfold upsert. rewrite lookup_insert_ne; [done|]. apply Hts. by left.
Qed.

(** Upserting in order, the last tuple for a date decides its row. *)
Lemma foldl_upsert_last table (ts : list tuple) (j : nat) (t : tuple) :
  ts !! j = Some t →
  (∀ j' t', j < j' → ts !! j' = Some t' → t_date t' ≠ t_date t) →
  foldl upsert table ts !! t_date t = Some (stored_of t).
Proof.
  intros Hj Hlater. rewrite <- (take_drop_middle ts j t Hj).
  rewrite foldl_app. cbn [foldl]. rewrite foldl_upsert_other.
  - unfold upsert. by rewrite lookup_insert_eq.
  - intros t' [k Hk]%list_elem_of_lookup. rewrite lookup_drop in Hk.
    eapply Hlater; [|done]. lia.
Qed.

Lemma range_bound (n i : nat) : i ∈ range n batch_size → i < n.
Proof.
  unfold batch_size. rewrite range_twenty.
  intros (k & -> & Hk)%list_elem_of_fmap.
  apply elem_of_seq in Hk. divmod (n + 19) 20. lia.
Qed.

(** The later row decides.  When a run completes and no media type of
    the file holds a quote, the store's row for a date carries the title
    of the last staged row with that normalised date, whether the rows
    with that date share a batch or not, and under either reading of
    repeated dates. *)
Theorem later_row_decides_the_title (mode : conflict_mode) (df df' : dataframe)
    table (j : nat) (r : gmap string cell) (d t : string) :
  normalize_dates to_datetime df = Ok df' →
  outcome (load_to_supabase to_datetime (post mode) (Some df) table) = Ok tt →
  (∀ r m, r ∈ df_rows df → r !! "media_type" = Some m → quote_free (format m) = true) →
  df_rows df' !! j = Some r →
  r !! "date" = Some (CStr d) →
  r !! "title" = Some (CStr t) →
  (∀ j' r', j < j' → df_rows df' !! j' = Some r' → r' !! "date" ≠ Some (CStr d)) →
  title <$> store (load_to_supabase to_datetime (post mode) (Some df) table) !! d
    = Some t.
Proof.
  intros Hnorm Hout Hmedia Hj Hd Ht Hlater.
  unfold load_to_supabase in *. rewrite Hnorm in *.
  destruct (normalize_dates_rows to_datetime df df' Hnorm) as [_ Hrows].
  destruct (upsert_from_table mode (df_rows df')
    (range (length (df_rows df')) batch_size) table) as (ts & Hts & ->);
    [| |done|].
  { intros r' t' [i Hi]%list_elem_of_lookup Hr'.
    destruct (Forall2_lookup_r _ _ _ _ _ Hrows Hi) as (r0 & Hr0 & x & ->).
    revert Hr'. unfold tuple_of_row.
    rewrite lookup_insert_eq, !lookup_insert_ne by done. cbn [mbind option_bind].
    destruct (r0 !! "title" ≫= as_str) as [tt|]; cbn; [|done].
    destruct (r0 !! "explanation" ≫= as_str) as [e|]; cbn; [|done].
    destruct (r0 !! "media_type") as [m|] eqn:Hm; cbn; [|done].
    destruct (as_str _) as [u|]; cbn; [|done].
    intros [= <-]. split; cbn.
    - apply format_dt_strftime.
    - eapply Hmedia; [|done]. by eapply list_elem_of_lookup_2. }
  { apply range_bound. }
  change (concat _) with (concat (batches (df_rows df'))) in Hts.
  rewrite batches_concat in Hts.
  assert (Htuple : ∀ i r' t', df_rows df' !! i = Some r' → ts !! i = Some t' →
            (∀ c, r' !! "date" = Some c → t_date t' = format c)
            ∧ (∀ s, r' !! "title" = Some (CStr s) → t_title t' = s)).
  { intros i r' t' Hi Hi'.
    pose proof (Forall2_lookup_lr _ _ _ _ _ _ Hts Hi Hi') as Hr'.
    revert Hr'. unfold tuple_of_row.
    destruct (r' !! "date") as [c|]; cbn; [|done].
    destruct (r' !! "title") as [[s| |s]|]; cbn; try done.
    destruct (r' !! "explanation" ≫= as_str) as [e|]; cbn; [|done].
    destruct (r' !! "media_type") as [m|]; cbn; [|done].
    destruct (as_str _) as [u|]; cbn; [|done].
    intros [= <-]. split; [by intros ? [= <-]|by intros ? [= <-]]. }
  destruct (Forall2_lookup_l _ _ _ _ _ Hts Hj) as (tj & Htj & _).
  destruct (Htuple j r tj Hj Htj) as [Hdate Htitle].
  specialize (Hdate _ Hd). specialize (Htitle _ Ht). cbn [format] in Hdate.
  rewrite <- Hdate, (foldl_upsert_last table ts j tj Htj).
  { cbn. by rewrite Htitle. }
  intros j' t' Hlt Hj'. rewrite Hdate.
  destruct (Forall2_lookup_r _ _ _ _ _ Hts Hj') as (r' & Hr' & _).
  destruct (Htuple j' r' t' Hr' Hj') as [Hdate' _].
  destruct (Forall2_lookup_r _ _ _ _ _ Hrows Hr') as (r0 & _ & x' & ->).
  rewrite (Hdate' (dt_strftime x')) by apply lookup_insert_eq.
  destruct (Forall2_lookup_r _ _ _ _ _ Hrows Hj) as (rj & _ & x & ->).
  rewrite lookup_insert_eq in Hd.
  destruct x as [y|]; [|done]. injection Hd as <-.
  destruct x' as [y'|]; cbn [dt_strftime format].
  - intros Heq. eapply Hlater; [done|done|].
    rewrite lookup_insert_eq. cbn [dt_strftime]. by rewrite Heq.
  - intros Heq. pose proof (strftime_length y) as Hlen.
    rewrite <- Heq in Hlen. done.
Qed.

End StoreFacts.

(** ** Missing inputs *)

(** C7.  Without the raw artifact the transformer raises
    [FileNotFoundError] having created the staged directory and written
    no file; without the staged artifact the loader raises
    [FileNotFoundError] having sent nothing. *)
Theorem missing_artifact_raises_first :
  Transform.transform_nasa_data Transform.Absent
    = (Raise FileNotFoundError, [Transform.Mkdir Transform.staged_dir])
  ∧ Transform.written (Transform.transform_nasa_data Transform.Absent).2 = []
  ∧ taxonomy FileNotFoundError = Some MissingInputError
  ∧ ∀ (to_datetime : list Loader.cell -> option (list (option Loader.datetime)))
      (remote : Type) (post : remote -> string -> option Loader.response * remote)
      (s : remote),
      Loader.outcome (Loader.load_to_supabase to_datetime post None s)
        = Raise FileNotFoundError
      ∧ Loader.sent (Loader.load_to_supabase to_datetime post None s) = []
      ∧ Loader.store (Loader.load_to_supabase to_datetime post None s) = s.
Proof. done. Qed.

(** ** Runs on sample inputs *)

Section Runs.
Import Loader Store Samples Notions.

(** Forty-five rows are cut into batches of 20, 20 and 5. *)
Example forty_five_rows :
  length <$> batches (df_rows staged45) = [20; 20; 5].
Proof. by vm_compute. Qed.

Lemma load_sends_one_statement_per_batch_witness :
  outcome (load_to_supabase iso_to_datetime scripted (Some staged45) []) = Ok tt
  ∧ length (sent (load_to_supabase iso_to_datetime scripted (Some staged45) []))
      = ceil_div (length (df_rows staged45)) 20
  ∧ ceil_div (length (df_rows staged45)) 20 = 3.
Proof.
  assert (H : outcome (load_to_supabase iso_to_datetime scripted (Some staged45) [])
              = Ok tt) by (by vm_compute).
  destruct (load_sends_one_statement_per_batch iso_to_datetime scripted staged45 [] H)
    as (df' & _ & _ & _ & _ & _ & _ & Hn).
  split; [exact H|]. split; [exact Hn|]. by vm_compute.
Defined.

(** C1 as stated fails: when the store refuses the second of the
    three statements of forty-five rows, two requests are sent, not
    three. *)
Lemma refused_second_batch_of_forty_five :
  ceil_div (length (df_rows staged45)) 20 = 3
  ∧ outcome (load_to_supabase iso_to_datetime scripted (Some staged45)
               [Some accepted; Some rejected]) = Raise RuntimeError
  ∧ length (sent (load_to_supabase iso_to_datetime scripted (Some staged45)
                    [Some accepted; Some rejected])) = 2.
Proof. by vm_compute. Qed.

Lemma refused_batch_ends_the_load_witness :
  outcome (load_to_supabase iso_to_datetime scripted (Some (frame [plain]))
             [Some rejected]) = Raise RuntimeError.
Proof.
  refine (proj1 (refused_batch_ends_the_load iso_to_datetime scripted
    (Some (frame [plain])) [Some rejected]
    (insert_sql ["('2024-01-01 00:00:00', 'Moon', 'e', 'image', 'u')"])
    rejected _ _)).
  - vm_compute. apply list_elem_of_here.
  - reflexivity.
Defined.

Lemma missing_title_stops_before_its_batch_witness :
  ∃ e,
    outcome (load_to_supabase iso_to_datetime scripted (Some staged21) []) = Raise e
    ∧ length (sent (load_to_supabase iso_to_datetime scripted (Some staged21) []))
        ≤ 20 `div` 20
    ∧ (taxonomy e = Some LoadError →
       ∃ q resp,
         last (sent (load_to_supabase iso_to_datetime scripted (Some staged21) []))
           = Some (q, Some resp)
         ∧ ok resp = false).
Proof.
  refine (missing_title_stops_before_its_batch iso_to_datetime scripted
    staged21 [] 20 (<["title" := CNull]> plain) _ _).
  - reflexivity.
  - left. right. reflexivity.
Defined.

(** C10 as stated fails: when the store refuses the first batch, the
    run on a file whose twenty-first row has no title ends in
    [RuntimeError], the class that reports a refused batch. *)
Lemma refused_batch_before_missing_title :
  (df_rows staged21 !! 20) ≫= (.!! "title") = Some CNull
  ∧ outcome (load_to_supabase iso_to_datetime scripted (Some staged21)
               [Some rejected]) = Raise RuntimeError
  ∧ taxonomy RuntimeError = Some LoadError.
Proof. by vm_compute. Qed.

(** C3 fails for [media_type]: the quote of the title is doubled, the
    quote of the media type is written as it is. *)
Lemma media_type_is_not_escaped :
  value_tuple (row "2024-01-01 00:00:00" "Earth's Moon" "e" "o'clock" "u")
    = Ok "('2024-01-01 00:00:00', 'Earth''s Moon', 'e', 'o'clock', 'u')"
  ∧ replace_char quote "''" "o'clock" = "o''clock".
Proof. by vm_compute. Qed.

(** C2 fails through the same gap.  The staged file holds two rows for
    the first of January, the later one titled B; the text of a third
    row's media type is read by the store as a further tuple, and the
    run completes with the store holding neither A nor B.  In
    [staged3] the three rows share a batch, in [staged41] they lie in
    three batches. *)
Lemma crafted_media_type_overwrites_title :
  (.!! "title") <$>
    filter (fun r => r !! "date" = Some (CStr "2024-01-01")) (df_rows staged41)
    = [Some (CStr "A"); Some (CStr "B")]
  ∧ (∀ mode,
      let run := load_to_supabase iso_to_datetime (Store.post mode) (Some staged41) ∅ in
      outcome run = Ok tt
      ∧ length (sent run) = 3
      ∧ title <$> store run !! "2024-01-01 00:00:00" = Some "EVIL")
  ∧ (let run := load_to_supabase iso_to_datetime (Store.post RowByRow) (Some staged3) ∅ in
     outcome run = Ok tt
     ∧ title <$> store run !! "2024-01-01 00:00:00" = Some "EVIL").
Proof.
  split; [by vm_compute|]. split; [|by vm_compute].
  intros []; by vm_compute.
Qed.

(** Under PostgreSQL's rule two rows for one date in one batch make
    the store refuse the statement: the run ends in [RuntimeError]. *)
Example repeated_date_in_one_batch_refused :
  outcome (load_to_supabase iso_to_datetime (Store.post RejectRepeated)
             (Some staged2) ∅) = Raise RuntimeError.
Proof. by vm_compute. Qed.

Lemma empty_image_url_stops_before_its_batch_witness :
  ∃ e,
    outcome (load_to_supabase iso_to_datetime scripted
               (Some (frame [<["image_url" := CNull]> plain])) []) = Raise e
    ∧ length (sent (load_to_supabase iso_to_datetime scripted
                      (Some (frame [<["image_url" := CNull]> plain])) []))
        ≤ 0 `div` 20
    ∧ (taxonomy e = Some LoadError →
       ∃ q resp,
         last (sent (load_to_supabase iso_to_datetime scripted
                       (Some (frame [<["image_url" := CNull]> plain])) []))
           = Some (q, Some resp)
         ∧ ok resp = false).
Proof.
  refine (empty_image_url_stops_before_its_batch iso_to_datetime scripted
    (frame [<["image_url" := CNull]> plain]) [] 0
    (<["image_url" := CNull]> plain) _ _); reflexivity.
Defined.

Lemma later_row_decides_the_title_witness :
  title <$> store (load_to_supabase iso_to_datetime (Store.post RowByRow)
                     (Some staged2) ∅) !! "2024-01-01 00:00:00"
    = Some "B".
Proof.
  refine (later_row_decides_the_title iso_to_datetime RowByRow staged2
    (frame [<["date" := CStr "2024-01-01 00:00:00"]> first_A;
            <["date" := CStr "2024-01-01 00:00:00"]> then_B])
    ∅ 1 (<["date" := CStr "2024-01-01 00:00:00"]> then_B)
    "2024-01-01 00:00:00" "B" _ _ _ _ _ _ _).
  - reflexivity.
  - by vm_compute.
  - intros r m Hin Hm.
    apply elem_of_cons in Hin as [->|Hin];
      [|apply list_elem_of_singleton in Hin as ->];
      vm_compute in Hm; by injection Hm as <-.
  - reflexivity.
  - reflexivity.
  - reflexivity.
  - intros j' r' Hlt Hl. apply lookup_lt_Some in Hl. cbn in Hl. lia.
Defined.

End Runs.

(** * Further properties of the three scripts *)

(** ** The fetcher: key, request and artifact *)

Section ExtractMore.
Import Extract.





(** A call with a key raises [OverflowError] exactly when [days_back]
    is more than 999999999 days either way or the day that long before
    today is not a [date]; it has then asked for nothing and written
    nothing.  Otherwise its request starts that day and ends today. *)
Theorem date_range_overflow (environ : gmap string string) (args : arguments)
    (today : system_date) (get : request -> http_outcome) (key : string) :
  default (nasa_key environ) (arg_api_key args) = Some key →
  key ≠ EmptyString →
  let days_back := default 8%Z (arg_days_back args) in
  if bool_decide (-999999999 ≤ days_back ≤ 999999999
                  ∧ date_min ≤ toordinal today - days_back ≤ date_max)%Z
  then head (extract_nasa_data environ args today get).2
         = Some (HttpGet {| url := "https://api.nasa.gov/planetary/apod";
                            api_key := key;
                            start_date := toordinal today - days_back;
                            end_date := toordinal today;
                            thumbs := true |})
       ∧ (extract_nasa_data environ args today get).1 ≠ Raise OverflowError
  else extract_nasa_data environ args today get = (Raise OverflowError, []).
Proof.
  intros Hkey Hne days_back.
  assert (Htruthy : str_truthy (Some key) = true).
  { unfold str_truthy. by rewrite bool_decide_eq_false_2. }
  unfold extract_nasa_data. rewrite Hkey, Htruthy. cbn [negb]. cbv zeta.
  fold days_back. unfold params, timedelta, date_sub.
  case_bool_decide as Hin.
  - destruct Hin as [[H1 H2] [H3 H4]].
    apply Z.leb_le in H1, H2, H3, H4. rewrite H1, H2. cbn [andb bind].
    rewrite H3, H4. cbn [andb bind].
    destruct (get _) as [|status body]; [by cbn|].
    destruct (http_error status); [by cbn|].
    destruct body as [data|]; [|by cbn].
    destruct data; by cbn.
  - destruct ((-999999999 <=? days_back)%Z && (days_back <=? 999999999)%Z) eqn:Hd;
      cbn [bind]; [|done].
    destruct ((date_min <=? toordinal today - days_back)%Z
              && (toordinal today - days_back <=? date_max)%Z) eqn:Hs; cbn [bind]; [|done].
    exfalso. apply Hin.
    apply andb_true_iff in Hd as [?%Z.leb_le ?%Z.leb_le].
    apply andb_true_iff in Hs as [?%Z.leb_le ?%Z.leb_le]. done.
Qed.

Lemma date_range_overflow_witness :
  let args := {| arg_api_key := Some (Some "DEMO_KEY"); arg_days_back := Some 800000%Z |} in
  let get := fun _ : request => Response 200 (Some (JArr [])) in
  extract_nasa_data ∅ args Samples.day_739000 get = (Raise OverflowError, []).
Proof.
  intros args get.
  refine (date_range_overflow ∅ args Samples.day_739000 get "DEMO_KEY" _ _);
    [reflexivity | discriminate].
Defined.

End ExtractMore.

(** ** The transformer: which artifacts it accepts *)

Section TransformMore.
Import Transform.

Lemma objects_of (l : list json) :
  forallb is_dict l = true → ∃ recs, l = JObj <$> recs.
Proof.
  induction l as [|v l IH]; [by exists []|].
  cbn [forallb]. intros [Hv Hl]%andb_true_iff.
  destruct (IH Hl) as [recs ->]. destruct v; try done. by exists (o :: recs).
Qed.

Lemma loop_outcome (items : list json) (acc : list staged_row) :
  match loop items acc with
  | Ok recs => forallb is_dict items = true ∧ length recs = length acc + length items
  | Raise e => e = AttributeError ∧ forallb is_dict items = false
  end.
Proof.
  revert acc. induction items as [|v items IH]; intros acc; [cbn; lia|].
  destruct v; try done. cbn [loop forallb is_dict andb].
  specialize (IH (acc ++ [project o])).
  destruct (loop items _); [|done].
  destruct IH as [? Hlen]. split; [done|].
  rewrite Hlen, length_app. cbn [length]. lia.
Qed.

(** A list is staged as a whole or not at all.  When every item is an
    object the table holds the projection of each, in order; a single
    item that is not an object (a number, a string, a nested list)
    makes the run raise [AttributeError] without writing a file, also
    when records come before it. *)
Theorem transform_list_all_or_nothing (l : list json) :
  if forallb is_dict l
  then ∃ recs,
         l = JObj <$> recs
         ∧ transform_nasa_data (Holds (JArr l))
             = (Ok (DataFrame (project <$> recs)),
                [Mkdir staged_dir;
                 WriteCsv output_path (DataFrame (project <$> recs))])
  else transform_nasa_data (Holds (JArr l)) = (Raise AttributeError, [Mkdir staged_dir]).
Proof.
  destruct (forallb is_dict l) eqn:Hall.
  - destruct (objects_of l Hall) as [recs ->]. exists recs. split; [done|].
    unfold transform_nasa_data. cbn [is_dict py_iter bind].
    by rewrite loop_objects.
  - unfold transform_nasa_data. cbn [is_dict py_iter bind].
    pose proof (loop_outcome l []) as H.
    destruct (loop l []); [destruct H; congruence|]. by destruct H as [-> _].
Qed.

(** Whatever the raw artifact is, a run that returns has created the
    staged directory and written the table it returns, once; a run that
    raises has created the directory and written nothing.  Without the
    file it raises [FileNotFoundError]; on a file it cannot read as
    JSON, the error of [json.load]; on a JSON value it can only raise
    [TypeError] or [AttributeError]. *)
Theorem transform_writes_its_table_or_nothing (raw : raw_artifact) :
  match transform_nasa_data raw with
  | (Ok table, done) =>
      done = [Mkdir staged_dir; WriteCsv output_path table]
      ∧ ∃ data, raw = Holds data
  | (Raise e, done) =>
      done = [Mkdir staged_dir]
      ∧ match raw with
        | Absent => e = FileNotFoundError
        | Unreadable e' => e = e'
        | Holds _ => e = TypeError ∨ e = AttributeError
        end
  end.
Proof.
  unfold transform_nasa_data. destruct raw as [|e'|data]; [done..|].
  destruct (py_iter (if is_dict data then JArr [data] else data)) as [items|e] eqn:Hit;
    cbn [bind].
  - pose proof (loop_outcome items []) as H.
    destruct (loop items []); [by eauto|]. destruct H as [-> _]. by auto.
  - split; [done|]. destruct data; cbn in Hit; try done; injection Hit as <-; by auto.
Qed.

End TransformMore.

(** ** From the fetcher to the transformer *)

Section Pipeline.
Import Extract Transform.

Lemma chars_length (s : string) : length (chars s) = String.length s.
Proof. induction s as [|c s IH]; cbn; [done|]. by rewrite IH. Qed.

Lemma extract_returns_a_sized_value (environ : gmap string string) (args : arguments)
    (today : system_date) (get : request -> http_outcome) (data : json) :
  (extract_nasa_data environ args today get).1 = Ok data →
  is_dict data = false ∧ ∃ n, py_len data = Ok n.
Proof.
  unfold extract_nasa_data.
  destruct (default (nasa_key environ) (arg_api_key args)) as [key|]; [|done].
  destruct (str_truthy (Some key)); cbn [negb]; [|done].
  destruct (params _ _ _) as [req|?]; [|done].
  destruct (get _) as [|status body]; [done|].
  destruct (http_error status); [done|].
  destruct body as [body|]; [|done].
  destruct body; cbn; try done; intros [= <-]; by eauto.
Qed.

(** The transformer run on what the fetcher returned (and wrote) visits
    as many items as the fetcher counted.  It stages one row per item,
    or, when an item is not an object, raises [AttributeError]; the
    artifact is never a bare object, a number or null at that point. *)
Theorem transform_after_extract (environ : gmap string string) (args : arguments)
    (today : system_date) (get : request -> http_outcome) (data : json) :
  (extract_nasa_data environ args today get).1 = Ok data →
  ∃ items,
    py_iter data = Ok items
    ∧ py_len data = Ok (length items)
    ∧ match (transform_nasa_data (Holds data)).1 with
      | Ok table => length (rows table) = length items
      | Raise e => e = AttributeError ∧ forallb is_dict items = false
      end.
Proof.
  intros [Hnd [n Hn]]%extract_returns_a_sized_value.
  unfold transform_nasa_data. rewrite Hnd.
  destruct data as [| | |s|l|o]; try done; cbn [py_iter py_len bind].
  - exists (JStr <$> chars s). split; [done|].
    split; [by rewrite length_fmap, chars_length|].
    pose proof (loop_outcome (JStr <$> chars s) []) as H.
    destruct (loop _ []); cbn [fst rows DataFrame]; [by destruct H|done].
  - exists l. split; [done|]. split; [done|].
    pose proof (loop_outcome l []) as H.
    destruct (loop _ []); cbn [fst rows DataFrame]; [by destruct H|done].
Qed.

Lemma transform_after_extract_witness :
  let get := fun _ : request => Response 200 (Some (JArr [JObj ∅; JObj ∅])) in
  ∃ items,
    py_iter (JArr [JObj ∅; JObj ∅]) = Ok items
    ∧ py_len (JArr [JObj ∅; JObj ∅]) = Ok (length items)
    ∧ match (transform_nasa_data (Holds (JArr [JObj ∅; JObj ∅]))).1 with
      | Ok table => length (rows table) = length items
      | Raise e => e = AttributeError ∧ forallb is_dict items = false
      end.
Proof.
  intros get.
  refine (transform_after_extract {["api_key" := "DEMO_KEY"]} no_arguments
    Samples.day_739000 get
    (JArr [JObj ∅; JObj ∅]) _).
  reflexivity.
Defined.

End Pipeline.

(** ** The loader: what every run does and when it completes *)

Section LoadMore.
Import Loader Notions.

Context (to_datetime : list cell -> option (list (option datetime))).
Context {remote : Type} (post : remote -> string -> option response * remote).

Implicit Types rows batch : list (gmap string cell).
Implicit Types starts : list nat.
Implicit Types s : remote.

Ltac turn_loop i rows s query resp s' Hstmt Hpost Hok :=
  cbn [upsert_from];
  destruct (statement (iloc rows i (i + batch_size))) as [query|?] eqn:Hstmt;
  [destruct (post s query) as [[resp|] s'] eqn:Hpost;
   [destruct (ok resp) eqn:Hok|]|];
  cbn [outcome sent store].

Lemma upsert_from_bounded rows starts s :
  length (sent (upsert_from post rows starts s)) ≤ length starts.
Proof.
  revert s. induction starts as [|i starts IH]; intros s; [done|].
  turn_loop i rows s query resp s' Hstmt Hpost Hok; cbn [length]; try lia.
  specialize (IH s'). lia.
Qed.

Lemma upsert_from_earlier_accepted rows starts s :
  Forall answered_ok
    (take (length (sent (upsert_from post rows starts s)) - 1)
       (sent (upsert_from post rows starts s))).
Proof.
  revert s. induction starts as [|i starts IH]; intros s; [by constructor|].
  turn_loop i rows s query resp s' Hstmt Hpost Hok; try by constructor.
  specialize (IH s').
  destruct (sent (upsert_from post rows starts s')) as [|x l] eqn:Hs;
    [by constructor|].
  cbn [length] in *.
  replace (S (S (length l)) - 1) with (S (S (length l) - 1)) by lia.
  cbn [take]. constructor; [by exists resp|done].
Qed.

(** What every run does, however it ends.  The requests are statements
    of the batches, sent in the order of the batches, each batch at
    most once and none skipped: request number [k] is the statement of
    batch number [k].  Every request but the last one was accepted, the
    store received these requests and nothing else, and nothing is sent
    when the staged file is missing or line 28 fails. *)
Theorem load_requests_follow_the_batches (staged : option dataframe) (s : remote) :
  store (load_to_supabase to_datetime post staged s)
    = replay post s (sent (load_to_supabase to_datetime post staged s)).*1
  ∧ Forall answered_ok
      (take (length (sent (load_to_supabase to_datetime post staged s)) - 1)
         (sent (load_to_supabase to_datetime post staged s)))
  ∧ match staged with
    | None => sent (load_to_supabase to_datetime post staged s) = []
    | Some df =>
        match normalize_dates to_datetime df with
        | Raise _ => sent (load_to_supabase to_datetime post staged s) = []
        | Ok df' =>
            length (sent (load_to_supabase to_datetime post staged s))
              ≤ ceil_div (length (df_rows df)) 20
            ∧ Forall2 (fun x b => statement b = Ok x.1)
                (sent (load_to_supabase to_datetime post staged s))
                (take (length (sent (load_to_supabase to_datetime post staged s)))
                   (batches (df_rows df')))
        end
    end.
Proof.
  unfold load_to_supabase. destruct staged as [df|]; [|by repeat constructor].
  destruct (normalize_dates to_datetime df) as [df'|e] eqn:Hnorm;
    [|by repeat constructor].
  split; [apply upsert_from_store|]. split; [apply upsert_from_earlier_accepted|].
  destruct (normalize_dates_rows to_datetime df df' Hnorm) as [Hlen _].
  split.
  - etrans; [apply upsert_from_bounded|].
    rewrite <- Hlen, <- (batches_length (df_rows df')).
    unfold batches. by rewrite length_fmap.
  - unfold batches. rewrite <- fmap_take. apply Forall2_fmap_r.
    apply upsert_from_sent.
Qed.

Lemma upsert_from_unanswered rows starts s (q : string) :
  (q, None) ∈ sent (upsert_from post rows starts s) →
  outcome (upsert_from post rows starts s) = Raise RequestException
  ∧ ∃ earlier,
      sent (upsert_from post rows starts s) = earlier ++ [(q, None)]
      ∧ Forall answered_ok earlier.
Proof.
  revert s. induction starts as [|i starts IH]; intros s; [by intros ?%elem_of_nil|].
  turn_loop i rows s query resp' s' Hstmt Hpost Hok.
  - intros [[=]|Hin]%elem_of_cons.
    destruct (IH _ Hin) as (Hout & earlier & -> & Hall).
    split; [done|]. exists ((query, Some resp') :: earlier). split; [done|].
    constructor; [by exists resp'|done].
  - by intros [=]%list_elem_of_singleton.
  - intros [= ->]%list_elem_of_singleton. split; [done|]. by exists [].
  - by intros ?%elem_of_nil.
Qed.

(** A request that gets no answer (a timeout of [requests.post]) ends
    the run with the library's exception, not with the [RuntimeError] of
    line 69: it is the last request sent, the requests before it were
    accepted, and no later batch is tried. *)
Theorem unanswered_batch_ends_the_load (staged : option dataframe) (s : remote)
    (q : string) :
  (q, None) ∈ sent (load_to_supabase to_datetime post staged s) →
  outcome (load_to_supabase to_datetime post staged s) = Raise RequestException
  ∧ ∃ earlier,
      sent (load_to_supabase to_datetime post staged s) = earlier ++ [(q, None)]
      ∧ Forall answered_ok earlier
      ∧ store (load_to_supabase to_datetime post staged s)
          = (post (replay post s earlier.*1) q).2.
Proof.
  unfold load_to_supabase.
  destruct staged as [df|]; [|by intros ?%elem_of_nil].
  destruct (normalize_dates to_datetime df) as [df'|e]; [|by intros ?%elem_of_nil].
  intros Hin.
  destruct (upsert_from_unanswered _ _ _ _ Hin) as (Hout & earlier & Hsent & Hall).
  split; [done|]. exists earlier. split; [done|]. split; [done|].
  rewrite upsert_from_store, Hsent, fmap_app.
  unfold replay. by rewrite foldl_app.
Qed.

(** An empty staged table (a header and no row) is loaded by sending
    nothing: the run completes and the store is not contacted. *)
Theorem empty_frame_sends_nothing (df : dataframe) (s : remote) :
  df_rows df = [] →
  "date" ∈ df_columns df →
  to_datetime [] = Some [] →
  outcome (load_to_supabase to_datetime post (Some df) s) = Ok tt
  ∧ sent (load_to_supabase to_datetime post (Some df) s) = []
  ∧ store (load_to_supabase to_datetime post (Some df) s) = s.
Proof.
  intros Hrows Hcol Hdt.
  unfold load_to_supabase, normalize_dates, column, set_column.
  rewrite bool_decide_eq_true_2 by done. rewrite Hrows. cbn [fmap list_fmap bind].
  rewrite Hdt. by cbn.
Qed.

(** Without a [date] column, or with dates [pd.to_datetime] refuses,
    the run fails at line 28: nothing is sent, whatever the rows hold. *)
Theorem unreadable_dates_send_nothing (df : dataframe) (s : remote) :
  "date" ∉ df_columns df
  ∨ to_datetime ((fun r => default CNull (r !! "date")) <$> df_rows df) = None →
  ∃ e,
    outcome (load_to_supabase to_datetime post (Some df) s) = Raise e
    ∧ (e = KeyError ∨ e = DateParseError)
    ∧ sent (load_to_supabase to_datetime post (Some df) s) = []
    ∧ store (load_to_supabase to_datetime post (Some df) s) = s.
Proof.
  intros H. unfold load_to_supabase, normalize_dates, column.
  case_bool_decide as Hcol; cbn [bind].
  - destruct H as [H|H]; [done|]. rewrite H. exists DateParseError. by auto.
  - exists KeyError. by auto.
Qed.

(** Line 28 rewrites the [date] cell of each row, to the text of a
    timestamp or to a missing value, and touches nothing else: the
    columns, the number and order of the rows and every other cell stay
    as they were read. *)
Theorem normalize_dates_touches_only_the_date (df df' : dataframe) :
  normalize_dates to_datetime df = Ok df' →
  df_columns df' = df_columns df
  ∧ length (df_rows df') = length (df_rows df)
  ∧ ∀ j r', df_rows df' !! j = Some r' →
      ∃ r, df_rows df !! j = Some r
           ∧ (∀ k, k ≠ "date" → r' !! k = r !! k)
           ∧ (r' !! "date" = Some CNull
              ∨ ∃ t, r' !! "date" = Some (CStr (strftime t))).
Proof.
  intros Hnorm.
  destruct (normalize_dates_rows to_datetime df df' Hnorm) as [Hlen Hrows].
  split; [|split; [done|]].
  - revert Hnorm. unfold normalize_dates, column, set_column.
    case_bool_decide as Hcol; cbn [bind]; [|done].
    destruct (to_datetime _); [|done]. case_bool_decide; [|done].
    by intros [= <-].
  - intros j r' Hj.
    destruct (Forall2_lookup_r _ _ _ _ _ Hrows Hj) as (r & Hr & x & ->).
    exists r. split; [done|]. split.
    + intros k Hk. by rewrite lookup_insert_ne.
    + rewrite lookup_insert_eq. destruct x as [t|]; [right; by exists t|by left].
Qed.

Lemma build_values_ok batch (values : list string) :
  Forall (fun r => ∃ text, value_tuple r = Ok text) batch →
  ∃ vs, build_values batch values = Ok vs.
Proof.
  revert values. induction batch as [|r batch IH]; intros values Hall.
  - by exists values.
  - apply Forall_cons in Hall as [[text Hr] Hall]. cbn [build_values].
    rewrite Hr. cbn [bind]. by apply IH.
Qed.

Lemma build_values_all batch (values vs : list string) :
  build_values batch values = Ok vs →
  Forall (fun r => ∃ text, value_tuple r = Ok text) batch.
Proof.
  revert values. induction batch as [|r batch IH]; intros values; [by constructor|].
  cbn [build_values]. destruct (value_tuple r) as [text|] eqn:Hr; cbn [bind]; [|done].
  intros Hrest. constructor; [by exists text|]. by eapply IH.
Qed.

Lemma value_tuple_loadable (r : gmap string cell) (v : cell) :
  (∃ text, value_tuple (<["date" := v]> r) = Ok text) ↔ loadable r.
Proof.
  unfold loadable, value_tuple, getitem, escape.
  rewrite lookup_insert_eq, !lookup_insert_ne by done. cbn [bind].
  destruct (r !! "title") as [[t| |t]|]; cbn [bind];
    try (split; [by intros [? [=]]|by intros [[? [=]] _]]).
  destruct (r !! "explanation") as [[e| |e]|]; cbn [bind];
    try (split; [by intros [? [=]]|by intros (_ & [? [=]] & _)]).
  destruct (r !! "media_type") as [m|]; cbn [bind];
    [|split; [by intros [? [=]]|by intros (_ & _ & [? [=]] & _)]].
  destruct (r !! "image_url") as [[u| |u]|]; cbn [bind default];
    try (split; [by intros [? [=]]|by intros (_ & _ & _ & [[=]|[? [=]]])]);
    (split; [intros _|by eauto]); repeat split; by eauto.
Qed.

Lemma upsert_from_accepting rows starts s :
  (∀ s q, ∃ resp s', post s q = (Some resp, s') ∧ ok resp = true) →
  (∀ i, i ∈ starts → ∃ q, statement (iloc rows i (i + batch_size)) = Ok q) →
  outcome (upsert_from post rows starts s) = Ok tt.
Proof.
  intros Hpost. revert s.
  induction starts as [|i starts IH]; intros s Hst; [done|].
  cbn [upsert_from].
  destruct (Hst i) as [q ->]; [by left|].
  destruct (Hpost s q) as (resp & s' & -> & ->). cbn [outcome].
  apply IH. intros i' Hi'. apply Hst. by right.
Qed.

Lemma upsert_from_statements rows starts s :
  outcome (upsert_from post rows starts s) = Ok tt →
  ∀ i, i ∈ starts → ∃ q, statement (iloc rows i (i + batch_size)) = Ok q.
Proof.
  revert s. induction starts as [|i starts IH]; intros s; [by intros _ ? ?%elem_of_nil|].
  turn_loop i rows s query resp s' Hstmt Hpost Hok; try done.
  intros Hout i' [->|Hi']%elem_of_cons; [by eauto|]. by eapply IH.
Qed.

(** When the dates normalise and the store accepts what it is sent, a
    run completes exactly when every staged row is loadable: title and
    explanation are strings, the media type is there, and the image URL
    is a string or its column is absent.  One row that is not stops the
    whole file. *)
Theorem load_completes_iff_rows_loadable (df df' : dataframe) (s : remote) :
  (∀ s q, ∃ resp s', post s q = (Some resp, s') ∧ ok resp = true) →
  normalize_dates to_datetime df = Ok df' →
  outcome (load_to_supabase to_datetime post (Some df) s) = Ok tt
  ↔ Forall loadable (df_rows df).
Proof.
  intros Hpost Hnorm. unfold load_to_supabase. rewrite Hnorm.
  destruct (normalize_dates_rows to_datetime df df' Hnorm) as [Hlen Hrows].
  split.
  - intros Hout. apply Forall_lookup. intros j r Hr.
    destruct (Forall2_lookup_l _ _ _ _ _ Hrows Hr) as (r' & Hr' & x & ->).
    destruct (batch_of_row _ _ _ Hr') as [Hk Hin].
    destruct (upsert_from_statements _ _ _ Hout (20 * j `div` 20)) as [q Hq].
    { eapply list_elem_of_lookup_2. by apply range_lookup. }
    unfold statement in Hq.
    destruct (build_values _ []) as [vs|] eqn:Hvs; [|done].
    pose proof (build_values_all _ _ _ Hvs) as Hall.
    rewrite Forall_forall in Hall.
    by apply (value_tuple_loadable r (dt_strftime x)), Hall.
  - intros Hall. apply upsert_from_accepting; [done|].
    intros i Hi.
    destruct (build_values_ok (iloc (df_rows df') i (i + batch_size)) []) as [vs Hvs].
    { apply Forall_forall. intros r' Hr'%iloc_elem_of.
      apply list_elem_of_lookup in Hr' as [j Hj].
      destruct (Forall2_lookup_r _ _ _ _ _ Hrows Hj) as (r & Hr & x & ->).
      apply value_tuple_loadable. rewrite Forall_lookup in Hall. by eapply Hall. }
    unfold statement. rewrite Hvs. by eauto.
Qed.

End LoadMore.

(** ** The loader: the texts it writes *)

Section TextMore.
Import Loader Store Notions.

(** Doubling the quotes loses nothing: two values with the same
    escaped text are the same value, so no two titles are written as
    the same literal. *)
Theorem doubling_quotes_is_injective (s1 s2 : string) :
  replace_char quote "''" s1 = replace_char quote "''" s2 → s1 = s2.
Proof.
  intros Heq.
  pose proof (literal_body_escaped s1 EmptyString ltac:(done)) as H1.
  pose proof (literal_body_escaped s2 EmptyString ltac:(done)) as H2.
  rewrite Heq, H2 in H1. by injection H1.
Qed.

Lemma doubling_quotes_is_injective_witness :
  "Earth's Moon" = "Earth's Moon".
Proof. apply (doubling_quotes_is_injective "Earth's Moon" "Earth's Moon"). reflexivity. Defined.

Lemma digit_mod (a b : nat) : digit a = digit b → a `mod` 10 = b `mod` 10.
Proof.
  unfold digit. intros H%(f_equal nat_of_ascii).
  pose proof (Nat.mod_upper_bound a 10 ltac:(lia)).
  pose proof (Nat.mod_upper_bound b 10 ltac:(lia)).
  rewrite !nat_ascii_embedding in H by lia. lia.
Qed.

Lemma pad2_inj (a b : nat) (x y : string) :
  a < 100 → b < 100 → pad2 a +:+ x = pad2 b +:+ y → a = b ∧ x = y.
Proof.
  intros Ha Hb. unfold pad2. rewrite !append_cons, !append_nil.
  remember (a `div` 10) as a1 eqn:Ea1. remember (b `div` 10) as b1 eqn:Eb1.
  intros [= Q1%digit_mod Q2%digit_mod ->]. split; [|done].
  divmod a 10. divmod b 10.
  rewrite (Nat.mod_small a1) in Q1 by lia.
  rewrite (Nat.mod_small b1) in Q1 by lia. lia.
Qed.

Lemma pad4_inj (a b : nat) (x y : string) :
  a < 100 * 100 → b < 100 * 100 → pad4 a +:+ x = pad4 b +:+ y → a = b ∧ x = y.
Proof.
  intros Ha Hb. unfold pad4, pad2. rewrite !append_cons, !append_nil.
  assert (Hdiv : ∀ n, (n `div` 10) `div` 10 = n `div` 100
                      ∧ (n `div` 100) `div` 10 = n `div` 1000).
  { intros n. by rewrite !Nat.Div0.div_div. }
  destruct (Hdiv a) as [Ea1 Ea2]. destruct (Hdiv b) as [Eb1 Eb2].
  divmod a 10. divmod b 10. divmod (a `div` 10) 10. divmod (b `div` 10) 10.
  divmod (a `div` 100) 10. divmod (b `div` 100) 10.
  remember (a `div` 1000) as a3. remember (b `div` 1000) as b3.
  remember (a `div` 100) as a2. remember (b `div` 100) as b2.
  remember (a `div` 10) as a1. remember (b `div` 10) as b1.
  intros [= Q1%digit_mod Q2%digit_mod Q3%digit_mod Q4%digit_mod ->]. split; [|done].
  rewrite (Nat.mod_small a3) in Q1 by lia.
  rewrite (Nat.mod_small b3) in Q1 by lia. lia.
Qed.

Lemma same_head (c : ascii) (x y : string) : String c x = String c y → x = y.
Proof. by intros [=]. Qed.

(** The text of a timestamp tells it to the second and no further:
    two timestamps print alike exactly when they agree on the six
    fields of the format, whatever their fractions of a second and
    their offsets from UTC.  Rows share a normalised date as soon as
    their moments share the printed second. *)
Theorem strftime_tells_the_second (t1 t2 : datetime) :
  in_range t1 → in_range t2 →
  strftime t1 = strftime t2 ↔ same_second t1 t2.
Proof.
  destruct t1 as [y1 m1 d1 h1 n1 s1 f1 o1], t2 as [y2 m2 d2 h2 n2 s2 f2 o2].
  unfold in_range, same_second, strftime. cbn [year month day hour minute second].
  intros (Hy1 & Hm1 & Hd1 & Hh1 & Hn1 & Hs1) (Hy2 & Hm2 & Hd2 & Hh2 & Hn2 & Hs2).
  split; [|by intros (-> & -> & -> & -> & -> & ->)].
  intros H.
  apply pad4_inj in H as [-> H]; [|done..].
  rewrite ?append_cons, ?append_nil in H. apply same_head in H.
  apply pad2_inj in H as [-> H]; [|done..].
  rewrite ?append_cons, ?append_nil in H. apply same_head in H.
  apply pad2_inj in H as [-> H]; [|done..].
  rewrite ?append_cons, ?append_nil in H. apply same_head in H.
  apply pad2_inj in H as [-> H]; [|done..].
  rewrite ?append_cons, ?append_nil in H. apply same_head in H.
  apply pad2_inj in H as [-> H]; [|done..].
  rewrite ?append_cons, ?append_nil in H. apply same_head in H.
  assert (pad2 s1 +:+ EmptyString = pad2 s2 +:+ EmptyString) as Hs.
  { unfold pad2 in *. by rewrite !append_cons, !append_nil. }
  by apply pad2_inj in Hs as [-> _].
Qed.

Lemma strftime_tells_the_second_witness :
  let t1 := {| year := 2024; month := 1; day := 31; hour := 23; minute := 59;
               second := 59; nanosecond := 0; utcoffset := None |} in
  let t2 := {| year := 2024; month := 1; day := 31; hour := 23; minute := 59;
               second := 59; nanosecond := 500000000; utcoffset := Some 120%Z |} in
  t1 ≠ t2 ∧ strftime t1 = strftime t2.
Proof.
  intros t1 t2. split; [discriminate|].
  apply (strftime_tells_the_second t1 t2);
    [unfold in_range; cbn; lia..|unfold same_second; by cbn].
Defined.

End TextMore.

(** ** More runs on sample inputs *)

Section MoreRuns.
Import Loader Store Samples Notions.

Lemma unanswered_batch_ends_the_load_witness :
  outcome (load_to_supabase iso_to_datetime scripted (Some (frame [plain])) [None])
    = Raise RequestException.
Proof.
  refine (proj1 (unanswered_batch_ends_the_load iso_to_datetime scripted
    (Some (frame [plain])) [None]
    (insert_sql ["('2024-01-01 00:00:00', 'Moon', 'e', 'image', 'u')"]) _)).
  vm_compute. apply list_elem_of_here.
Defined.

Lemma empty_frame_sends_nothing_witness :
  outcome (load_to_supabase iso_to_datetime scripted (Some (frame [])) [Some rejected])
    = Ok tt
  ∧ sent (load_to_supabase iso_to_datetime scripted (Some (frame [])) [Some rejected])
      = []
  ∧ store (load_to_supabase iso_to_datetime scripted (Some (frame [])) [Some rejected])
      = [Some rejected].
Proof.
  refine (empty_frame_sends_nothing iso_to_datetime scripted (frame [])
    [Some rejected] _ _ _).
  - reflexivity.
  - apply list_elem_of_here.
  - reflexivity.
Defined.

Lemma unreadable_dates_send_nothing_witness :
  ∃ e,
    outcome (load_to_supabase iso_to_datetime scripted
               (Some (frame [row "yesterday" "Moon" "e" "image" "u"])) []) = Raise e
    ∧ (e = KeyError ∨ e = DateParseError)
    ∧ sent (load_to_supabase iso_to_datetime scripted
              (Some (frame [row "yesterday" "Moon" "e" "image" "u"])) []) = []
    ∧ store (load_to_supabase iso_to_datetime scripted
               (Some (frame [row "yesterday" "Moon" "e" "image" "u"])) []) = [].
Proof.
  refine (unreadable_dates_send_nothing iso_to_datetime scripted
    (frame [row "yesterday" "Moon" "e" "image" "u"]) [] _).
  right. reflexivity.
Defined.

Lemma normalize_dates_touches_only_the_date_witness :
  df_columns staged2_normalised = df_columns staged2
  ∧ length (df_rows staged2_normalised) = length (df_rows staged2)
  ∧ ∀ j r', df_rows staged2_normalised !! j = Some r' →
      ∃ r, df_rows staged2 !! j = Some r
           ∧ (∀ k, k ≠ "date" → r' !! k = r !! k)
           ∧ (r' !! "date" = Some CNull
              ∨ ∃ t, r' !! "date" = Some (CStr (strftime t))).
Proof.
  refine (normalize_dates_touches_only_the_date iso_to_datetime staged2
    staged2_normalised _).
  reflexivity.
Defined.

Lemma load_completes_iff_rows_loadable_witness :
  outcome (load_to_supabase iso_to_datetime accepting (Some staged2) tt) = Ok tt
  ↔ Forall loadable (df_rows staged2).
Proof.
  refine (load_completes_iff_rows_loadable iso_to_datetime accepting staged2
    staged2_normalised tt _ _).
  - intros s q. exists accepted, s. split; reflexivity.
  - reflexivity.
Defined.

End MoreRuns.
